(** * CosmicPanel: configuration and licensing bootstrap

    A shallow embedding of [config/config.go] and [cosmicpanel.go].

    The Go code is start-up glue: it reads a YAML file, resolves the service
    account through the OS, and talks to the license server.  Its effects are
    modelled by a small state-and-failure monad [M]:

    - the state [World] holds the file system, the process-wide logger and
      the trace of the calls the process made to the outside (network, OS
      user directory, child processes, log output);
    - a computation ends with a value ([Ok]), by [os.Exit] ([Exit], which is
      what [log.Fatal] does) or by a Go panic ([Panic]);
    - whatever the outside answers (the OS, the network, the YAML and JSON
      libraries) is read from an [Env], so every theorem that quantifies
      over [Env] holds for every behaviour of the outside.

    A method with a [Configuration] pointer receiver takes the receiver's value and
    returns its value after the call together with the Go results. *)

From Stdlib Require Import ZArith String Ascii List.
From stdpp Require Import base option strings gmap list pretty.

Local Open Scope string_scope.
Local Open Scope list_scope.
Local Open Scope Z_scope.

(** ** Data model (config.go, lines 20-68 and 177-242) *)

(** Types of licenses. *)
Definition FULL : Z := 1.
Definition LITE : Z := 2.
Definition DNSONLY : Z := 3.
Definition TRIAL : Z := 4.

(** The anonymous struct [User struct { Uid int; Gid int }]. *)
Record UserIds := mkUserIds { Uid : Z; Gid : Z }.

Record SystemConfiguration := mkSystemConfiguration {
  Data : string;
  Username : string;
  User : UserIds
}.

Record PanelConfiguration := mkPanelConfiguration { Port : Z }.

Record LicenseConfiguration := mkLicenseConfiguration {
  ValidLicense : bool;
  LicenseType : Z
}.

(** The three sections are Go pointers: [None] is the nil pointer. *)
Record Configuration := mkConfiguration {
  Debug : bool;
  System : option SystemConfiguration;
  Panel : option PanelConfiguration;
  License : option LicenseConfiguration
}.

(** [&Configuration{}]: every field at its zero value. *)
Definition emptyConfiguration : Configuration :=
  mkConfiguration false None None None.

(** [&SystemConfiguration{}]. *)
Definition zeroSystem : SystemConfiguration :=
  mkSystemConfiguration "" "" (mkUserIds 0 0).

Record LicenseVerify := mkLicenseVerify { lv_Valid : bool; lv_LicenseType : Z }.

Record LicenseRequest := mkLicenseRequest { lr_LicenseType : Z; lr_IP : string }.

(** ** Values of the Go libraries the code handles *)

(** An [error] value.  The code tells [user.UnknownUserError] from every other
    error by a type assertion, so that one has a constructor of its own. *)
Inductive error :=
| UnknownUserError (name : string)
| errorString (msg : string).

Definition error_Error (e : error) : string :=
  match e with
  | UnknownUserError name => "user: unknown user " +:+ name
  | errorString msg => msg
  end.

(** [_, ok := err.(user.UnknownUserError)]. *)
Definition is_UnknownUserError (e : error) : bool :=
  match e with UnknownUserError _ => true | errorString _ => false end.

(** [os/user.User]: uid and gid are strings there. *)
Module user.
Record User := mkUser {
  Uid : string;
  Gid : string;
  Username : string;
  Name : string;
  HomeDir : string
}.
End user.

Record Request := mkRequest {
  Method : string;
  URL : string;
  Header : list (string * string);
  ReqBody : option string
}.

Record Response := mkResponse { StatusCode : Z; Body : string }.

(** What [net.Dial] hands back: the code only reads the local address. *)
Record Conn := mkConn { LocalAddr_IP : string }.

(** The parsed form of a YAML document, cut down to the keys the
    [Configuration] struct maps (yaml.v2 lower-cases the field names and
    ignores unknown keys).  [None] is a key that is absent. *)
Record YamlUser := mkYamlUser { y_uid : option Z; y_gid : option Z }.
Record YamlSystem := mkYamlSystem {
  y_data : option string;
  y_username : option string;
  y_user : option YamlUser
}.
Record YamlPanel := mkYamlPanel { y_port : option Z }.
Record YamlLicense := mkYamlLicense {
  y_validlicense : option bool;
  y_licensetype : option Z
}.
Record YamlDoc := mkYamlDoc {
  y_debug : option bool;
  y_system : option YamlSystem;
  y_panel : option YamlPanel;
  y_license : option YamlLicense
}.

(** ** The process and its surroundings *)

Inductive Level := DebugLevel | InfoLevel | PanicLevel.

(** A call the process makes to the outside, in the order it makes them. *)
Inductive Event :=
| EvDial (network address : string)
| EvDo (req : Request)
| EvLookup (name : string)
| EvExec (name : string) (args : list string)
| EvLog (msg : string)
| EvStdout (msg : string)
| EvZap (lvl : Level) (msg : string).

Inductive FsOp := OpRead | OpOpen | OpWrite.

Record World := mkWorld {
  files : gmap string string;
  (** zap's global logger: [None] until [zap.ReplaceGlobals], then whether it
      was built from the development configuration. *)
  logger : option bool;
  trace : list Event
}.

(** The answers of the outside.  An answer that can change over time is a
    function of the trace so far. *)
Record Env := mkEnv {
  os_ExpandEnv : string -> string;
  yaml_parse : string -> YamlDoc + error;
  yaml_Marshal : Configuration -> string + error;
  json_Marshal : LicenseRequest -> string + error;
  json_Decode : string -> LicenseVerify + error;
  url_error : string -> string -> option error;
  net_Dial : list Event -> string -> string -> Conn + error;
  http_Do : list Event -> Request -> Response + error;
  user_Lookup : list Event -> string -> user.User + error;
  exec_Output : list Event -> string -> list string -> string + error;
  fs_fault : list Event -> FsOp -> string -> option error;
  zap_Build : bool -> option error;
  flag_Parse : list string -> option Z
}.

Inductive Outcome (A : Type) :=
| Ok (a : A)
| Exit (code : Z)
| Panic (msg : string).
Arguments Ok {A} a.
Arguments Exit {A} code.
Arguments Panic {A} msg.

Definition M (A : Type) : Type := World -> Outcome A * World.

#[global] Instance M_ret : MRet M := fun A a w => (Ok a, w).

#[global] Instance M_bind : MBind M := fun A B f m w =>
  match m w with
  | (Ok a, w') => f a w'
  | (Exit code, w') => (Exit code, w')
  | (Panic msg, w') => (Panic msg, w')
  end.

Definition os_Exit {A} (code : Z) : M A := fun w => (Exit code, w).

Definition panic {A} (msg : string) : M A := fun w => (Panic msg, w).

Definition nil_dereference : string :=
  "runtime error: invalid memory address or nil pointer dereference".

Definition emit (ev : Event) : M unit := fun w =>
  (Ok tt, mkWorld (files w) (logger w) (trace w ++ [ev])).

(** ** Library calls

    Each Go library call the code makes, as a computation of [M].  The ones
    that reach outside the process record an [Event] and take their result
    from [env]. *)

Section Program.

Variable env : Env.

(** [log.Println], [log.Fatal] (which prints and then calls [os.Exit(1)]) and
    [fmt.Println]. *)
Definition log_Println (msg : string) : M unit := emit (EvLog msg).

Definition log_Fatal {A} (msg : string) : M A := emit (EvLog msg);; os_Exit 1.

Definition fmt_Println (msg : string) : M unit := emit (EvStdout msg).

(** zap's global sugared logger [zap.S()]: a no-op logger until
    [zap.ReplaceGlobals]; a production logger drops debug-level entries. *)
Definition zap_enabled (dev : bool) (lvl : Level) : bool :=
  match lvl with DebugLevel => dev | _ => true end.

Definition zap_S (lvl : Level) (msg : string) : M unit := fun w =>
  match logger w with
  | Some dev => if zap_enabled dev lvl then emit (EvZap lvl msg) w else (Ok tt, w)
  | None => (Ok tt, w)
  end.

(** [zap.S().Panicw]: logs, then panics, whatever the logger. *)
Definition zap_Panicw {A} (msg : string) : M A := zap_S PanicLevel msg;; panic msg.

Definition zap_ReplaceGlobals (dev : bool) : M unit := fun w =>
  (Ok tt, mkWorld (files w) (Some dev) (trace w)).

Definition net_dial (network address : string) : M (Conn + error) := fun w =>
  (Ok (net_Dial env (trace w) network address),
   mkWorld (files w) (logger w) (trace w ++ [EvDial network address])).

(** [http.NewRequest]: fails when net/http refuses the method or net/url the
    URL, and builds the request otherwise. *)
Definition http_NewRequest (method url : string) (body : option string)
  : Request + error :=
  match url_error env method url with
  | Some e => inr e
  | None => inl (mkRequest method url [] body)
  end.

(** [req.Header.Set]. *)
Definition Header_Set (req : Request) (key value : string) : Request :=
  mkRequest (Method req) (URL req)
    ((key, value) :: List.filter (fun kv => negb (String.eqb (fst kv) key)) (Header req))
    (ReqBody req).

(** [client.Do(req)] on a fresh [http.Client]. *)
Definition client_Do (req : Request) : M (Response + error) := fun w =>
  (Ok (http_Do env (trace w) req),
   mkWorld (files w) (logger w) (trace w ++ [EvDo req])).

Definition user_lookup (name : string) : M (user.User + error) := fun w =>
  (Ok (user_Lookup env (trace w) name),
   mkWorld (files w) (logger w) (trace w ++ [EvLookup name])).

(** [exec.Command(name, args...).Output()]. *)
Definition exec_Command_Output (name : string) (args : list string)
  : M (string + error) := fun w =>
  (Ok (exec_Output env (trace w) name args),
   mkWorld (files w) (logger w) (trace w ++ [EvExec name args])).

(** [ioutil.ReadFile]. *)
Definition ioutil_ReadFile (path : string) : M (string + error) := fun w =>
  match fs_fault env (trace w) OpRead path with
  | Some e => (Ok (inr e), w)
  | None =>
      match files w !! path with
      | Some b => (Ok (inl b), w)
      | None =>
          (Ok (inr (errorString ("open " +:+ path +:+ ": no such file or directory"))), w)
      end
  end.

(** [os.OpenFile(path, os.O_WRONLY, perm)].  The flag is [O_WRONLY] alone:
    without [O_CREATE] a missing file is an error, and the third argument is
    the permission of a file that gets created, so it is not read here.  The
    handle is the path; its offset is 0. *)
Definition os_OpenFile_WRONLY (path : string) : M (string + error) := fun w =>
  match fs_fault env (trace w) OpOpen path with
  | Some e => (Ok (inr e), w)
  | None =>
      match files w !! path with
      | Some _ => (Ok (inl path), w)
      | None =>
          (Ok (inr (errorString ("open " +:+ path +:+ ": no such file or directory"))), w)
      end
  end.

(** Writing [b] at offset 0 of a file that was not truncated: what the file
    held beyond [b] stays. *)
Definition overwrite (b old : string) : string :=
  b +:+ String.substring (String.length b)
          (String.length old - String.length b)%nat old.

(** [f.Write(b)] on a handle just opened. *)
Definition File_Write (f : string) (b : string) : M (option error) := fun w =>
  match fs_fault env (trace w) OpWrite f with
  | Some e => (Ok (Some e), w)
  | None =>
      (Ok None,
       mkWorld (<[f := overwrite b (default "" (files w !! f))]> (files w))
         (logger w) (trace w))
  end.

(** [yaml.Unmarshal(b, c)] into a struct that already holds values: a key
    that is present sets its field, a section that is present allocates the
    struct behind a nil pointer first, and everything absent is left as it
    was. *)
Definition decode_user (y : YamlUser) (u : UserIds) : UserIds :=
  mkUserIds (default (Uid u) (y_uid y)) (default (Gid u) (y_gid y)).

Definition decode_system (y : YamlSystem) (s : SystemConfiguration)
  : SystemConfiguration :=
  mkSystemConfiguration
    (default (Data s) (y_data y))
    (default (Username s) (y_username y))
    (match y_user y with Some yu => decode_user yu (User s) | None => User s end).

Definition decode_panel (y : YamlPanel) (p : PanelConfiguration)
  : PanelConfiguration :=
  mkPanelConfiguration (default (Port p) (y_port y)).

Definition decode_license (y : YamlLicense) (l : LicenseConfiguration)
  : LicenseConfiguration :=
  mkLicenseConfiguration
    (default (ValidLicense l) (y_validlicense y))
    (default (LicenseType l) (y_licensetype y)).

Definition decode (doc : YamlDoc) (c : Configuration) : Configuration :=
  mkConfiguration
    (default (Debug c) (y_debug doc))
    (match y_system doc with
     | Some y => Some (decode_system y (default zeroSystem (System c)))
     | None => System c
     end)
    (match y_panel doc with
     | Some y => Some (decode_panel y (default (mkPanelConfiguration 0) (Panel c)))
     | None => Panel c
     end)
    (match y_license doc with
     | Some y =>
         Some (decode_license y (default (mkLicenseConfiguration false 0) (License c)))
     | None => License c
     end).

Definition yaml_Unmarshal (b : string) (c : Configuration) : Configuration + error :=
  match yaml_parse env b with
  | inl doc => inl (decode doc c)
  | inr e => inr e
  end.

(** [strconv.Atoi]: an optional sign and decimal digits; 0 on a syntax
    error, the nearest [int] on overflow. *)
Definition digit_of (ch : ascii) : option Z :=
  let n := Z.of_nat (nat_of_ascii ch) in
  if (48 <=? n) && (n <=? 57) then Some (n - 48) else None.

Fixpoint parse_digits (s : string) (acc : Z) : option Z :=
  match s with
  | EmptyString => Some acc
  | String ch s' =>
      match digit_of ch with
      | Some d => parse_digits s' (10 * acc + d)
      | None => None
      end
  end.

Definition maxInt : Z := 2 ^ 63 - 1.
Definition minInt : Z := - 2 ^ 63.
Definition ErrSyntax : error := errorString "strconv.Atoi: invalid syntax".
Definition ErrRange : error := errorString "strconv.Atoi: value out of range".

Definition strconv_Atoi (s : string) : Z * option error :=
  let '(neg, ds) :=
    match s with
    | String "-" rest => (true, rest)
    | String "+" rest => (false, rest)
    | _ => (false, s)
    end in
  match ds with
  | EmptyString => (0, Some ErrSyntax)
  | _ =>
      match parse_digits ds 0 with
      | None => (0, Some ErrSyntax)
      | Some n =>
          let v := if neg then - n else n in
          if maxInt <? v then (maxInt, Some ErrRange)
          else if v <? minInt then (minInt, Some ErrRange)
          else (v, None)
      end
  end.

(** [strings.Split(s, sep)] for a separator of one character. *)
Fixpoint strings_Split (s : string) (sep : ascii) : list string :=
  match s with
  | EmptyString => [EmptyString]
  | String ch s' =>
      if Ascii.eqb ch sep then EmptyString :: strings_Split s' sep
      else
        match strings_Split s' sep with
        | [] => [String ch EmptyString]
        | x :: xs => String ch x :: xs
        end
  end.

(** ** config.go *)

(** [SetDefaults] (lines 72-81). *)
Definition SetDefaults (c : Configuration) : Configuration :=
  mkConfiguration (Debug c)
    (Some (mkSystemConfiguration "/usr/local/cosmicpanel" "cosmicpanel" (mkUserIds 0 0)))
    (Some (mkPanelConfiguration 1334))
    (License c).

(** [SetLicenseSettings] (lines 84-89). *)
Definition SetLicenseSettings (c : Configuration) (valid : bool) (licenseType : Z)
  : Configuration :=
  mkConfiguration (Debug c) (System c) (Panel c)
    (Some (mkLicenseConfiguration valid licenseType)).

(** [ReadConfiguration] (lines 93-110): the result is the Go pair of a [Configuration] pointer and an error. *)
Definition ReadConfiguration (path : string)
  : M (option Configuration * option error) :=
  r ← ioutil_ReadFile path;
  match r with
  | inr err => mret (None, Some err)
  | inl b =>
      let c := emptyConfiguration in
      let b := os_ExpandEnv env b in
      match yaml_Unmarshal b c with
      | inr err => mret (None, Some err)
      | inl c => mret (Some c, None)
      end
  end.

(** [WriteToDisk] (lines 158-175).  The file name is the literal of line 159.
    [defer f.Close()] changes nothing the model holds. *)
Definition WriteToDisk (c : Configuration) : M (option error) :=
  r ← os_OpenFile_WRONLY "config.yml";
  match r with
  | inr err => mret (Some err)
  | inl f =>
      match yaml_Marshal env c with
      | inr err => mret (Some err)
      | inl b =>
          werr ← File_Write f b;
          match werr with
          | Some err => mret (Some err)
          | None => mret None
          end
      end
  end.

(** [SetSystemUser] (lines 144-153): both [Atoi] errors are dropped. *)
Definition SetSystemUser (c : Configuration) (u : user.User)
  : M (Configuration * option error) :=
  let '(uid, _) := strconv_Atoi (user.Uid u) in
  let '(gid, _) := strconv_Atoi (user.Gid u) in
  match System c with
  | None => panic nil_dereference
  | Some s =>
      let c :=
        mkConfiguration (Debug c)
          (Some (mkSystemConfiguration (Data s) (user.Username u) (mkUserIds uid gid)))
          (Panel c) (License c) in
      err ← WriteToDisk c;
      mret (c, err)
  end.

(** [EnsureUser] (lines 117-140): the Go pair of a [user.User] pointer and an
    error, next to the receiver. *)
Definition EnsureUser (c : Configuration)
  : M (Configuration * (option user.User * option error)) :=
  match System c with
  | None => panic nil_dereference
  | Some s =>
      r ← user_lookup (Username s);
      match r with
      | inl u =>
          '(c, err) ← SetSystemUser c u;
          mret (c, (Some u, err))
      | inr err =>
          if negb (is_UnknownUserError err) then mret (c, (None, Some err))
          else
            let command :=
              "useradd --system --no-create-home --shell /bin/false " +:+ Username s in
            let split := strings_Split command " "%char in
            match split with
            | [] => panic "runtime error: index out of range"
            | name :: args =>
                r ← exec_Command_Output name args;
                match r with
                | inr err => mret (c, (None, Some err))
                | inl _ =>
                    r ← user_lookup (Username s);
                    match r with
                    | inr err => mret (c, (None, Some err))
                    | inl u =>
                        '(c, err) ← SetSystemUser c u;
                        mret (c, (Some u, err))
                    end
                end
            end
      end
  end.

(** [GetOutboundIP] (lines 226-236). *)
Definition GetOutboundIP : M string :=
  r ← net_dial "udp" "8.8.8.8:80";
  match r with
  | inr _ => mret ""
  | inl conn => mret (LocalAddr_IP conn)
  end.

(** [requestLicense] (lines 245-276).  The error of [http.NewRequest] is not
    looked at, so a nil request is dereferenced by [req.Header.Set]; the
    [return] after each [log.Fatal] is kept although it is never reached. *)
Definition requestLicense (c : Configuration) (licenseType : Z) : M Configuration :=
  ip ← GetOutboundIP;
  if negb (String.eqb ip "") then
    let url := "https://licenses.cosmicpanel.net/request" in
    fmt_Println "Requesting License...";;
    match json_Marshal env (mkLicenseRequest licenseType ip) with
    | inr err =>
        log_Fatal (A:=unit) ("RequestLicense: " +:+ error_Error err);;
        mret c
    | inl jsonBytes =>
        match http_NewRequest "POST" url (Some jsonBytes) with
        | inr _ => panic nil_dereference
        | inl req =>
            let req := Header_Set req "Content-Type" "application/json" in
            r ← client_Do req;
            match r with
            | inr err =>
                log_Fatal (A:=unit) ("RequestLicense: " +:+ error_Error err);;
                mret c
            | inl _ => mret c
            end
        end
    end
  else mret c.

(** Lines 279-295. *)
Definition RequestDNSONLYLicense (c : Configuration) : M Configuration :=
  requestLicense c 3.

Definition RequestTrialLicense (c : Configuration) : M Configuration :=
  requestLicense c 4.

Definition RequestNewLicense (c : Configuration) (dnsonly : bool) : M Configuration :=
  if dnsonly then RequestDNSONLYLicense c else RequestTrialLicense c.

(** [CheckLicense] (lines 184-223).  The function has no result type, so the
    [return false] of lines 195, 206 and 218 are plain returns here. *)
Definition CheckLicense (c : Configuration) (dnsonly : bool) : M Configuration :=
  ip ← GetOutboundIP;
  if negb (String.eqb ip "") then
    let url := "https://licenses.cosmicpanel.net/verify?ip=" +:+ ip in
    match http_NewRequest "GET" url None with
    | inr err =>
        log_Fatal (A:=unit) ("NewRequest: " +:+ error_Error err);;
        c ← RequestNewLicense c dnsonly;
        mret c
    | inl req =>
        r ← client_Do req;
        match r with
        | inr err =>
            log_Fatal (A:=unit) ("Do : " +:+ error_Error err);;
            c ← RequestNewLicense c dnsonly;
            mret c
        | inl resp =>
            match json_Decode env (Body resp) with
            | inr err =>
                log_Println (error_Error err);;
                c ← RequestNewLicense c dnsonly;
                mret c
            | inl record =>
                mret (SetLicenseSettings c (lv_Valid record) (lv_LicenseType record))
            end
        end
    end
  else mret c.

(** ** cosmicpanel.go *)

(** [ConfigureLogging] (lines 55-74). *)
Definition ConfigureLogging (debug : bool) : M (option error) :=
  match zap_Build env debug with
  | Some err => mret (Some err)
  | None => zap_ReplaceGlobals debug;; mret None
  end.

(** [flag.Parse()]: exits on a command line it refuses. *)
Definition flag_parse (args : list string) : M unit :=
  match flag_Parse env args with
  | Some code => os_Exit code
  | None => mret tt
  end.

(** [main] (lines 13-51).  Lines 14-16 dereference the pointers that
    [flag.String] and [flag.Bool] return before [flag.Parse] runs, so the
    three locals hold the defaults whatever the command line says. *)
Definition main (args : list string) : M unit :=
  let configPath := "config.yml" in
  let debug := false in
  let dnsonly := false in
  flag_parse args;;
  zap_S InfoLevel ("Using configuration file: " +:+ configPath);;
  '(c, err) ← ReadConfiguration configPath;
  match err with
  | Some err => panic (error_Error err)
  | None =>
      match c with
      | None => panic nil_dereference
      | Some c =>
          let c :=
            if debug then mkConfiguration true (System c) (Panel c) (License c)
            else c in
          lerr ← ConfigureLogging (Debug c);
          match lerr with
          | Some err => panic (error_Error err)
          | None =>
              (if Debug c then zap_S DebugLevel "running in debug mode" else mret tt);;
              zap_S InfoLevel "Checking for CosmicPanel system user...";;
              '(c, (_, uerr)) ← EnsureUser c;
              match uerr with
              | Some _ => zap_Panicw "Failed to create CosmicPanel system user"
              | None => zap_S InfoLevel "Configured system user..."
              end;;
              zap_S InfoLevel "Checking for vaid license...";;
              _ ← CheckLicense c dnsonly;
              mret tt
          end
      end
  end.

End Program.

(** ** Observations on worlds and traces *)

Definition is_POST (ev : Event) : bool :=
  match ev with EvDo req => String.eqb (Method req) "POST" | _ => false end.

Definition is_EvDo (ev : Event) : bool :=
  match ev with EvDo _ => true | _ => false end.

Definition is_EvExec (ev : Event) : bool :=
  match ev with EvExec _ _ => true | _ => false end.

Definition is_output (ev : Event) : bool :=
  match ev with EvLog _ | EvStdout _ | EvZap _ _ => true | _ => false end.

(** The requests of a trace that are POSTs, the HTTP requests of a trace, and
    the child processes it started. *)
Definition posts (tr : list Event) : list Event := List.filter is_POST tr.
Definition requests (tr : list Event) : list Event := List.filter is_EvDo tr.
Definition execs (tr : list Event) : list Event := List.filter is_EvExec tr.

(** What a trace printed: log lines, standard output, zap entries. *)
Definition outputs (tr : list Event) : list Event := List.filter is_output tr.

(** The world [GetOutboundIP] leaves behind. *)
Definition dialled (w : World) : World :=
  mkWorld (files w) (logger w) (trace w ++ [EvDial "udp" "8.8.8.8:80"]).

(** The address [GetOutboundIP] finds when the trace so far is [tr]. *)
Definition outbound (env : Env) (tr : list Event) : string :=
  match net_Dial env tr "udp" "8.8.8.8:80" with
  | inl conn => LocalAddr_IP conn
  | inr _ => ""
  end.

(** The request [CheckLicense] builds for the address [ip], and the world
    after it was sent. *)
Definition verifyGET (ip : string) : Request :=
  mkRequest "GET" ("https://licenses.cosmicpanel.net/verify?ip=" +:+ ip) [] None.

Definition verified (env : Env) (w : World) : World :=
  mkWorld (files w) (logger w)
    (trace w ++ [EvDial "udp" "8.8.8.8:80"; EvDo (verifyGET (outbound env (trace w)))]).

(** The request [requestLicense] builds around the encoded body, and the
    world after it was sent. *)
Definition licensePOST (body : string) : Request :=
  mkRequest "POST" "https://licenses.cosmicpanel.net/request"
    [("Content-Type", "application/json")] (Some body).

Definition requested (w : World) (body : string) : World :=
  mkWorld (files w) (logger w)
    (trace w ++ [EvDial "udp" "8.8.8.8:80"; EvStdout "Requesting License...";
                 EvDo (licensePOST body)]).

(** The file [WriteToDisk] writes starts with the serialization of [c]. *)
Definition persisted (env : Env) (c : Configuration) (w : World) : bool :=
  match yaml_Marshal env c, files w !! "config.yml" with
  | inl b, Some f => String.prefix b f
  | _, _ => false
  end.

(** ** Concrete surroundings for the examples *)

Definition dq : string := String (ascii_of_nat 34) EmptyString.
Definition nl : string := String (ascii_of_nat 10) EmptyString.

Definition render_bool (b : bool) : string := if b then "true" else "false".

(** A serializer in the layout of yaml.v2. *)
Definition render_yaml (c : Configuration) : string :=
  "debug: " +:+ render_bool (Debug c) +:+ nl +:+
  match System c with
  | None => "system: null" +:+ nl
  | Some s =>
      "system:" +:+ nl +:+
      "  data: " +:+ Data s +:+ nl +:+
      "  username: " +:+ Username s +:+ nl +:+
      "  user:" +:+ nl +:+
      "    uid: " +:+ pretty (Uid (User s)) +:+ nl +:+
      "    gid: " +:+ pretty (Gid (User s)) +:+ nl
  end +:+
  match Panel c with
  | None => "panel: null" +:+ nl
  | Some p => "panel:" +:+ nl +:+ "  port: " +:+ pretty (Port p) +:+ nl
  end +:+
  match License c with
  | None => "license: null" +:+ nl
  | Some l =>
      "license:" +:+ nl +:+
      "  validlicense: " +:+ render_bool (ValidLicense l) +:+ nl +:+
      "  licensetype: " +:+ pretty (LicenseType l) +:+ nl
  end.

Definition render_request (r : LicenseRequest) : string :=
  "{" +:+ dq +:+ "type" +:+ dq +:+ ":" +:+ pretty (lr_LicenseType r) +:+ "," +:+
  dq +:+ "ip" +:+ dq +:+ ":" +:+ dq +:+ lr_IP r +:+ dq +:+ "}".

(** Three configuration files and what yaml.v2 reads in them. *)
Definition yamlOnlyDebug : string := "debug: true" +:+ nl.

Definition yamlOnlyPanel : string := "panel:" +:+ nl +:+ "  port: 2000" +:+ nl.

Definition yamlSystem : string :=
  "system:" +:+ nl +:+ "  data: /srv/panel" +:+ nl +:+ "  username: panel" +:+ nl.

Definition demo_yaml_parse (b : string) : YamlDoc + error :=
  if String.eqb b yamlOnlyDebug then inl (mkYamlDoc (Some true) None None None)
  else if String.eqb b yamlOnlyPanel then
    inl (mkYamlDoc None None (Some (mkYamlPanel (Some 2000))) None)
  else if String.eqb b yamlSystem then
    inl (mkYamlDoc None
           (Some (mkYamlSystem (Some "/srv/panel") (Some "panel") None)) None None)
  else inr (errorString "yaml: unmarshal errors").

(** The answer of the license server for a full license, and what
    encoding/json reads in it. *)
Definition fullLicenseBody : string :=
  "{" +:+ dq +:+ "valid" +:+ dq +:+ ": true, " +:+
  dq +:+ "licenseType" +:+ dq +:+ ": 1}".

Definition demo_json_Decode (b : string) : LicenseVerify + error :=
  if String.eqb b fullLicenseBody then inl (mkLicenseVerify true 1)
  else inr (errorString "invalid character '<' looking for beginning of value").

(** Surroundings that differ in the network, the license server and the OS
    user directory; no file system fault, no environment variable in the
    files, a command line and a logger configuration that are accepted. *)
Definition surroundings
    (dial : list Event -> Conn + error)
    (server : list Event -> Request -> Response + error)
    (lookup : list Event -> string -> user.User + error)
    (useradd : list Event -> string -> list string -> string + error) : Env :=
  mkEnv (fun s => s) demo_yaml_parse (fun c => inl (render_yaml c))
    (fun r => inl (render_request r)) demo_json_Decode
    (fun _ _ => None) (fun tr _ _ => dial tr) server lookup useradd
    (fun _ _ _ => None) (fun _ => None) (fun _ => None).

Definition routed : list Event -> Conn + error :=
  fun _ => inl (mkConn "10.0.0.5").

Definition unrouted : list Event -> Conn + error :=
  fun _ => inr (errorString "dial udp 8.8.8.8:80: connect: network is unreachable").

(** A route that is there for the first [net.Dial] only. *)
Definition routedOnce : list Event -> Conn + error :=
  fun tr => match tr with [] => routed tr | _ => unrouted tr end.

Definition serverDown : list Event -> Request -> Response + error :=
  fun _ _ => inr (errorString "dial tcp: connect: connection refused").

Definition serverFull : list Event -> Request -> Response + error :=
  fun _ _ => inl (mkResponse 200 fullLicenseBody).

Definition serverHtml : list Event -> Request -> Response + error :=
  fun _ _ => inl (mkResponse 502 "<html>Bad Gateway</html>").

Definition panelUser : user.User :=
  user.mkUser "999" "998" "cosmicpanel" "" "/home/cosmicpanel".

Definition userKnown : list Event -> string -> user.User + error :=
  fun _ _ => inl panelUser.

Definition userDenied : list Event -> string -> user.User + error :=
  fun _ _ => inr (errorString "open /etc/passwd: permission denied").

(** The user is unknown until [useradd] has run. *)
Definition userAfterUseradd : list Event -> string -> user.User + error :=
  fun tr name =>
    match execs tr with
    | [] => inr (UnknownUserError name)
    | _ => inl panelUser
    end.

Definition useraddOk : list Event -> string -> list string -> string + error :=
  fun _ _ _ => inl "".

Definition defaultConfiguration : Configuration := SetDefaults emptyConfiguration.

Definition world0 : World :=
  mkWorld {[ "config.yml" := render_yaml defaultConfiguration ]} None [].

(** A host whose configuration lives in [custom.yml], next to an unrelated
    [config.yml]. *)
Definition worldCustom : World :=
  mkWorld {[ "custom.yml" := yamlOnlyPanel; "config.yml" := yamlOnlyDebug ]} None [].

Definition worldOnlyDebug : World :=
  mkWorld {[ "config.yml" := yamlOnlyDebug ]} None [].

(** The hosts of the examples: no route; the license server refuses
    connections; it grants a full license; a proxy answers with an error
    page; the same with a route that is lost after the first look. *)
Definition hostNoRoute : Env := surroundings unrouted serverFull userKnown useraddOk.
Definition hostServerDown : Env := surroundings routed serverDown userKnown useraddOk.
Definition hostLicensed : Env := surroundings routed serverFull userKnown useraddOk.
Definition hostBadGateway : Env := surroundings routed serverHtml userKnown useraddOk.
Definition hostRouteLost : Env := surroundings routedOnce serverHtml userKnown useraddOk.

(** Hosts where the user directory cannot be read, and where the service
    account does not exist yet. *)
Definition hostDenied : Env := surroundings routed serverFull userDenied useraddOk.
Definition hostFresh : Env := surroundings routed serverFull userAfterUseradd useraddOk.

(** A host with [custom.yml] and no [config.yml]. *)
Definition worldNoConfigYml : World :=
  mkWorld {[ "custom.yml" := yamlOnlyPanel ]} None [].

(** What [custom.yml] decodes to, and the default configuration once the
    service account of the examples is recorded in it. *)
Definition customConfiguration : Configuration :=
  mkConfiguration false None (Some (mkPanelConfiguration 2000)) None.

Definition resolvedConfiguration : Configuration :=
  mkConfiguration false
    (Some (mkSystemConfiguration "/usr/local/cosmicpanel" "cosmicpanel"
             (mkUserIds 999 998)))
    (Some (mkPanelConfiguration 1334)) None.

(** ** Vocabulary of the further properties *)

(** A computation leaves the observation [obs] of the world as it found it,
    however it ends. *)
Definition stable {X A : Type} (obs : World -> X) (m : M A) : Prop :=
  forall w, obs (snd (m w)) = obs w.

(** The observation does not see the event, a write to the file, the logger. *)
Definition ignores {X : Type} (obs : World -> X) (ev : Event) : Prop :=
  forall fs lg tr, obs (mkWorld fs lg (tr ++ [ev])) = obs (mkWorld fs lg tr).

Definition ignores_file {X : Type} (obs : World -> X) (path : string) : Prop :=
  forall fs lg tr b, obs (mkWorld (<[path := b]> fs) lg tr) = obs (mkWorld fs lg tr).

Definition ignores_logger {X : Type} (obs : World -> X) : Prop :=
  forall fs lg lg' tr, obs (mkWorld fs lg' tr) = obs (mkWorld fs lg tr).

(** Every value the computation returns satisfies [P]. *)
Definition yields {A : Type} (P : A -> Prop) (m : M A) : Prop :=
  forall w a w', m w = (Ok a, w') -> P a.

Definition is_network (ev : Event) : bool :=
  match ev with EvDial _ _ | EvDo _ => true | _ => false end.

Definition is_EvLookup (ev : Event) : bool :=
  match ev with EvLookup _ => true | _ => false end.

(** The network calls and the user directory lookups of a trace. *)
Definition network (tr : list Event) : list Event := List.filter is_network tr.
Definition lookups (tr : list Event) : list Event := List.filter is_EvLookup tr.

Fixpoint has_space (s : string) : bool :=
  match s with
  | EmptyString => false
  | String ch s' => Ascii.eqb ch " " || has_space s'
  end.

(** The fixed arguments of the [useradd] command of [EnsureUser]. *)
Definition useradd_flags : list string :=
  ["--system"; "--no-create-home"; "--shell"; "/bin/false"].

(** The request type [RequestNewLicense] passes on. *)
Definition requested_type (dnsonly : bool) : Z := if dnsonly then 3 else 4.

(** What one license check may send, in order: nothing, the verify GET, or
    the verify GET and then one POST whose body encodes [licenseType] and
    some address. *)
Definition license_traffic (env : Env) (licenseType : Z) (sent : list Event) : Prop :=
  sent = [] \/
  (exists ip, sent = [EvDo (verifyGET ip)]) \/
  (exists ip ip' body,
      json_Marshal env (mkLicenseRequest licenseType ip') = inl body /\
      sent = [EvDo (verifyGET ip); EvDo (licensePOST body)]).




(** A host whose [config.yml] names the data directory and the account,
    and what that file decodes to. *)
Definition worldSystem : World :=
  mkWorld {[ "config.yml" := yamlSystem ]} None [].

Definition systemConfiguration : Configuration :=
  mkConfiguration false
    (Some (mkSystemConfiguration "/srv/panel" "panel" (mkUserIds 0 0))) None None.

(** A [config.yml] that is longer than the serialization written over it. *)
Definition worldLongFile : World :=
  mkWorld {[ "config.yml" := render_yaml resolvedConfiguration ]} None [].

(** * Properties *)

(** ** Running computations *)

Lemma bind_Ok {A B} (m : M A) (f : A -> M B) (w w' : World) (a : A) :
  m w = (Ok a, w') -> (m ≫= f) w = f a w'.
Proof. intros H. unfold mbind, M_bind. now rewrite H. Qed.

Lemma bind_Exit {A B} (m : M A) (f : A -> M B) (w w' : World) (code : Z) :
  m w = (Exit code, w') -> (m ≫= f) w = (Exit code, w').
Proof. intros H. unfold mbind, M_bind. now rewrite H. Qed.

Lemma log_Fatal_exits {A} (msg : string) (w : World) :
  log_Fatal (A:=A) msg w =
  (Exit 1, mkWorld (files w) (logger w) (trace w ++ [EvLog msg])).
Proof. reflexivity. Qed.

Lemma requests_app (tr tr' : list Event) :
  requests (tr ++ tr') = requests tr ++ requests tr'.
Proof. apply List.filter_app. Qed.

Lemma posts_app (tr tr' : list Event) : posts (tr ++ tr') = posts tr ++ posts tr'.
Proof. apply List.filter_app. Qed.

Lemma execs_app (tr tr' : list Event) : execs (tr ++ tr') = execs tr ++ execs tr'.
Proof. apply List.filter_app. Qed.

Lemma outputs_app (tr tr' : list Event) :
  outputs (tr ++ tr') = outputs tr ++ outputs tr'.
Proof. apply List.filter_app. Qed.

(** The branch [ip != ""] of [CheckLicense] and [requestLicense]. *)
Ltac take_route H :=
  apply String.eqb_neq in H; rewrite H; change (negb false) with true; cbv iota.

(** ** The outbound address *)

Section License.

Variable env : Env.

Lemma GetOutboundIP_run (w : World) :
  GetOutboundIP env w = (Ok (outbound env (trace w)), dialled w).
Proof.
  unfold GetOutboundIP, outbound, net_dial, dialled, mbind, M_bind.
  destruct (net_Dial env (trace w) "udp" "8.8.8.8:80"); reflexivity.
Qed.

Lemma no_route_outbound (w : World) :
  fst (GetOutboundIP env w) = Ok "" -> outbound env (trace w) = "".
Proof. rewrite GetOutboundIP_run. simpl. congruence. Qed.

Lemma dialled_observations (w : World) :
  files (dialled w) = files w /\
  requests (trace (dialled w)) = requests (trace w) /\
  outputs (trace (dialled w)) = outputs (trace w) /\
  execs (trace (dialled w)) = execs (trace w).
Proof.
  unfold dialled; simpl.
  rewrite requests_app, outputs_app, execs_app; simpl.
  now rewrite !List.app_nil_r.
Qed.

(** [requestLicense] without an outbound address. *)
Lemma requestLicense_no_route (c : Configuration) (licenseType : Z) (w : World) :
  outbound env (trace w) = "" -> requestLicense env c licenseType w = (Ok c, dialled w).
Proof.
  intros Hip. unfold requestLicense.
  rewrite (bind_Ok _ _ _ _ _ (GetOutboundIP_run w)), Hip. reflexivity.
Qed.

(** [requestLicense] with an outbound address, a body that encodes, a URL
    that is accepted: one POST, and the process exits when it fails. *)
Lemma requestLicense_routed (c : Configuration) (licenseType : Z) (w : World)
    (body : string) :
  outbound env (trace w) <> "" ->
  json_Marshal env (mkLicenseRequest licenseType (outbound env (trace w))) = inl body ->
  url_error env "POST" "https://licenses.cosmicpanel.net/request" = None ->
  requestLicense env c licenseType w =
  match http_Do env (trace w ++ [EvDial "udp" "8.8.8.8:80";
                                 EvStdout "Requesting License..."])
          (licensePOST body) with
  | inl _ => (Ok c, requested w body)
  | inr err =>
      (Exit 1,
       mkWorld (files w) (logger w)
         (trace (requested w body) ++ [EvLog ("RequestLicense: " +:+ error_Error err)]))
  end.
Proof.
  intros Hip Hjson Hurl. unfold requestLicense.
  rewrite (bind_Ok _ _ _ _ _ (GetOutboundIP_run w)).
  take_route Hip.
  unfold fmt_Println, emit, mbind, M_bind, dialled. simpl.
  rewrite Hjson. unfold http_NewRequest. rewrite Hurl.
  unfold client_Do, Header_Set, licensePOST, requested. simpl.
  rewrite <- !List.app_assoc. simpl.
  destruct (http_Do env _ _); reflexivity.
Qed.

(** ** The verify exchange: three ways to fail, one to succeed *)

Lemma CheckLicense_no_route (c : Configuration) (dnsonly : bool) (w : World) :
  outbound env (trace w) = "" -> CheckLicense env c dnsonly w = (Ok c, dialled w).
Proof.
  intros Hip. unfold CheckLicense.
  rewrite (bind_Ok _ _ _ _ _ (GetOutboundIP_run w)), Hip. reflexivity.
Qed.

Lemma CheckLicense_NewRequest_error (c : Configuration) (dnsonly : bool) (w : World)
    (err : error) :
  outbound env (trace w) <> "" ->
  url_error env "GET" (URL (verifyGET (outbound env (trace w)))) = Some err ->
  CheckLicense env c dnsonly w =
  (Exit 1,
   mkWorld (files w) (logger w)
     (trace w ++ [EvDial "udp" "8.8.8.8:80"; EvLog ("NewRequest: " +:+ error_Error err)])).
Proof.
  intros Hip Hurl. unfold CheckLicense.
  rewrite (bind_Ok _ _ _ _ _ (GetOutboundIP_run w)).
  take_route Hip.
  unfold http_NewRequest. simpl in Hurl. rewrite Hurl.
  erewrite bind_Exit by apply log_Fatal_exits.
  unfold dialled. simpl. now rewrite <- List.app_assoc.
Qed.

Lemma CheckLicense_Do_error (c : Configuration) (dnsonly : bool) (w : World)
    (err : error) :
  outbound env (trace w) <> "" ->
  url_error env "GET" (URL (verifyGET (outbound env (trace w)))) = None ->
  http_Do env (trace (dialled w)) (verifyGET (outbound env (trace w))) = inr err ->
  CheckLicense env c dnsonly w =
  (Exit 1,
   mkWorld (files w) (logger w)
     (trace (verified env w) ++ [EvLog ("Do : " +:+ error_Error err)])).
Proof.
  intros Hip Hurl Hdo. unfold CheckLicense.
  rewrite (bind_Ok _ _ _ _ _ (GetOutboundIP_run w)).
  take_route Hip.
  unfold http_NewRequest. simpl in Hurl. rewrite Hurl.
  unfold client_Do at 1. unfold mbind at 1, M_bind at 1.
  fold (verifyGET (outbound env (trace w))). rewrite Hdo.
  erewrite bind_Exit by apply log_Fatal_exits.
  unfold verified, dialled. simpl. now rewrite <- !List.app_assoc.
Qed.

Lemma CheckLicense_Decode_error (c : Configuration) (dnsonly : bool) (w : World)
    (resp : Response) (err : error) :
  outbound env (trace w) <> "" ->
  url_error env "GET" (URL (verifyGET (outbound env (trace w)))) = None ->
  http_Do env (trace (dialled w)) (verifyGET (outbound env (trace w))) = inl resp ->
  json_Decode env (Body resp) = inr err ->
  CheckLicense env c dnsonly w =
  RequestNewLicense env c dnsonly
    (mkWorld (files w) (logger w) (trace (verified env w) ++ [EvLog (error_Error err)])).
Proof.
  intros Hip Hurl Hdo Hdec. unfold CheckLicense.
  rewrite (bind_Ok _ _ _ _ _ (GetOutboundIP_run w)).
  take_route Hip.
  unfold http_NewRequest. simpl in Hurl. rewrite Hurl.
  unfold client_Do at 1. unfold mbind at 1, M_bind at 1.
  fold (verifyGET (outbound env (trace w))). rewrite Hdo, Hdec.
  unfold log_Println, emit. unfold mbind at 1, M_bind at 1. simpl.
  unfold mbind, M_bind, mret, M_ret.
  rewrite <- !List.app_assoc. simpl.
  destruct (RequestNewLicense env c dnsonly _) as [[a | code | msg] w']; reflexivity.
Qed.

Lemma CheckLicense_success (c : Configuration) (dnsonly : bool) (w : World)
    (resp : Response) (record : LicenseVerify) :
  outbound env (trace w) <> "" ->
  url_error env "GET" (URL (verifyGET (outbound env (trace w)))) = None ->
  http_Do env (trace (dialled w)) (verifyGET (outbound env (trace w))) = inl resp ->
  json_Decode env (Body resp) = inl record ->
  CheckLicense env c dnsonly w =
  (Ok (SetLicenseSettings c (lv_Valid record) (lv_LicenseType record)), verified env w).
Proof.
  intros Hip Hurl Hdo Hdec. unfold CheckLicense.
  rewrite (bind_Ok _ _ _ _ _ (GetOutboundIP_run w)).
  take_route Hip.
  unfold http_NewRequest. simpl in Hurl. rewrite Hurl.
  unfold client_Do at 1. unfold mbind at 1, M_bind at 1.
  fold (verifyGET (outbound env (trace w))). rewrite Hdo, Hdec.
  unfold verified, dialled. simpl. now rewrite <- !List.app_assoc.
Qed.

End License.

(** ** The license check *)

(** C8: when [GetOutboundIP] returns the empty string, [CheckLicense] skips
    the check: it returns normally with the configuration it was given, the
    only call it made is the [net.Dial] of the address discovery, so no HTTP
    request was sent and nothing was logged or printed, and the files are
    untouched. *)
Theorem CheckLicense_skips_without_outbound_ip
    (env : Env) (c : Configuration) (dnsonly : bool) (w : World) :
  fst (GetOutboundIP env w) = Ok "" ->
  CheckLicense env c dnsonly w = (Ok c, dialled w) /\
  trace (dialled w) = trace w ++ [EvDial "udp" "8.8.8.8:80"] /\
  requests (trace (dialled w)) = requests (trace w) /\
  outputs (trace (dialled w)) = outputs (trace w) /\
  files (dialled w) = files w.
Proof.
  intros Hip. apply no_route_outbound in Hip.
  destruct (dialled_observations w) as (Hf & Hr & Ho & _).
  split; [now apply CheckLicense_no_route | now repeat split].
Qed.

(** C10: [requestLicense] asks for the outbound address again, in the world
    it is called in.  When that [GetOutboundIP] returns the empty string, the
    call sends no POST, logs nothing and returns the configuration it was
    given, through each of its three entry points; so a verify attempt that
    found an address and could not decode the answer falls back to a request
    that does nothing when the address is gone by then. *)
Theorem requestLicense_silent_without_outbound_ip
    (env : Env) (c : Configuration) (w : World) :
  fst (GetOutboundIP env w) = Ok "" ->
  (forall licenseType, requestLicense env c licenseType w = (Ok c, dialled w)) /\
  (forall dnsonly, RequestNewLicense env c dnsonly w = (Ok c, dialled w)) /\
  RequestDNSONLYLicense env c w = (Ok c, dialled w) /\
  RequestTrialLicense env c w = (Ok c, dialled w) /\
  posts (trace (dialled w)) = posts (trace w) /\
  outputs (trace (dialled w)) = outputs (trace w) /\
  files (dialled w) = files w /\
  (forall w0 dnsonly resp err,
      outbound env (trace w0) <> "" ->
      url_error env "GET" (URL (verifyGET (outbound env (trace w0)))) = None ->
      http_Do env (trace (dialled w0)) (verifyGET (outbound env (trace w0))) = inl resp ->
      json_Decode env (Body resp) = inr err ->
      w = mkWorld (files w0) (logger w0)
            (trace (verified env w0) ++ [EvLog (error_Error err)]) ->
      CheckLicense env c dnsonly w0 = (Ok c, dialled w)).
Proof.
  intros Hip. apply no_route_outbound in Hip.
  assert (Hreq : forall licenseType,
             requestLicense env c licenseType w = (Ok c, dialled w))
    by (intros; now apply requestLicense_no_route).
  assert (Hnew : forall dnsonly, RequestNewLicense env c dnsonly w = (Ok c, dialled w))
    by (intros [|]; apply Hreq).
  destruct (dialled_observations w) as (Hf & _ & Ho & _).
  repeat split; auto.
  - apply Hreq.
  - apply Hreq.
  - unfold dialled; simpl. rewrite posts_app; simpl. now rewrite List.app_nil_r.
  - intros w0 dnsonly resp err Hip0 Hurl Hdo Hdec ->.
    rewrite (CheckLicense_Decode_error env c dnsonly w0 resp err) by assumption.
    apply Hnew.
Qed.

(** C2, as amended: when the license server answers the verify GET with a
    body that decodes to valid [v] and license type [t], [CheckLicense]
    returns the configuration with its license section set to [v] and [t]
    and the other sections as they were; the update is in memory only: the
    files are the ones from before the call. *)
Theorem CheckLicense_sets_license_in_memory
    (env : Env) (c : Configuration) (dnsonly : bool) (w : World)
    (resp : Response) (v : bool) (t : Z) :
  outbound env (trace w) <> "" ->
  url_error env "GET" (URL (verifyGET (outbound env (trace w)))) = None ->
  http_Do env (trace (dialled w)) (verifyGET (outbound env (trace w))) = inl resp ->
  json_Decode env (Body resp) = inl (mkLicenseVerify v t) ->
  exists c' w',
    CheckLicense env c dnsonly w = (Ok c', w') /\
    License c' = Some (mkLicenseConfiguration v t) /\
    Debug c' = Debug c /\ System c' = System c /\ Panel c' = Panel c /\
    files w' = files w /\
    trace w' = trace w ++ [EvDial "udp" "8.8.8.8:80";
                           EvDo (verifyGET (outbound env (trace w)))].
Proof.
  intros Hip Hurl Hdo Hdec.
  exists (SetLicenseSettings c v t), (verified env w).
  rewrite (CheckLicense_success env c dnsonly w resp _ Hip Hurl Hdo Hdec).
  now repeat split.
Qed.

Lemma CheckLicense_skips_witness :
  fst (GetOutboundIP hostNoRoute world0) = Ok "" /\
  CheckLicense hostNoRoute defaultConfiguration true world0 =
  (Ok defaultConfiguration, dialled world0).
Proof.
  split; [reflexivity |].
  exact (proj1 (CheckLicense_skips_without_outbound_ip
                  hostNoRoute defaultConfiguration true world0 eq_refl)).
Defined.

Lemma requestLicense_silent_witness :
  fst (GetOutboundIP hostNoRoute world0) = Ok "" /\
  requestLicense hostNoRoute defaultConfiguration DNSONLY world0 =
  (Ok defaultConfiguration, dialled world0).
Proof.
  split; [reflexivity |].
  exact (proj1 (requestLicense_silent_without_outbound_ip
                  hostNoRoute defaultConfiguration world0 eq_refl) DNSONLY).
Defined.

(** The route is lost between the verify attempt and the fallback: the
    answer does not decode, the fallback looks for the address again, finds
    none and returns without a POST. *)
Example fallback_does_nothing_when_route_is_lost :
  CheckLicense hostRouteLost defaultConfiguration true world0 =
  (Ok defaultConfiguration,
   mkWorld (files world0) None
     [EvDial "udp" "8.8.8.8:80"; EvDo (verifyGET "10.0.0.5");
      EvLog "invalid character '<' looking for beginning of value";
      EvDial "udp" "8.8.8.8:80"]).
Proof. reflexivity. Qed.

(** The one branch of [CheckLicense] that does fall back: the answer does
    not decode.  With [dnsonly] one POST of type 3 leaves, without it one of
    type 4, and the configuration is the one from before. *)
Example fallback_after_undecodable_answer :
  CheckLicense hostBadGateway defaultConfiguration true world0 =
  (Ok defaultConfiguration,
   mkWorld (files world0) None
     [EvDial "udp" "8.8.8.8:80"; EvDo (verifyGET "10.0.0.5");
      EvLog "invalid character '<' looking for beginning of value";
      EvDial "udp" "8.8.8.8:80"; EvStdout "Requesting License...";
      EvDo (licensePOST (render_request (mkLicenseRequest DNSONLY "10.0.0.5")))]) /\
  posts (trace (snd (CheckLicense hostBadGateway defaultConfiguration false world0))) =
  [EvDo (licensePOST (render_request (mkLicenseRequest TRIAL "10.0.0.5")))].
Proof. split; reflexivity. Qed.

(** C2, as the claim states it, fails: the license server grants a full
    license, [CheckLicense] sets it in the configuration it returns, and
    [config.yml] still holds what it held before, which is not the
    serialization of the new configuration. *)
Lemma CheckLicense_does_not_persist :
  CheckLicense hostLicensed defaultConfiguration true world0 =
  (Ok (SetLicenseSettings defaultConfiguration true FULL), verified hostLicensed world0) /\
  License (SetLicenseSettings defaultConfiguration true FULL) =
  Some (mkLicenseConfiguration true 1) /\
  files (verified hostLicensed world0) !! "config.yml" =
  Some (render_yaml defaultConfiguration) /\
  persisted hostLicensed (SetLicenseSettings defaultConfiguration true FULL)
    (verified hostLicensed world0) = false.
Proof. repeat split; reflexivity. Qed.

Lemma CheckLicense_sets_license_witness :
  exists c' w',
    CheckLicense hostLicensed defaultConfiguration true world0 = (Ok c', w') /\
    License c' = Some (mkLicenseConfiguration true 1) /\
    files w' = files world0.
Proof.
  destruct (CheckLicense_sets_license_in_memory
              hostLicensed defaultConfiguration true world0
              (mkResponse 200 fullLicenseBody) true 1)
    as (c' & w' & Hrun & Hlic & _ & _ & _ & Hfiles & _);
    [discriminate | reflexivity | reflexivity | reflexivity |].
  exists c', w'. now repeat split.
Defined.

(** C1 at its failing input: the outbound address is found and the license
    server refuses the connection.  [CheckLicense] logs through [log.Fatal]
    and the process exits with status 1; [RequestNewLicense] is not reached. *)
Theorem CheckLicense_exits_on_network_error :
  CheckLicense hostServerDown defaultConfiguration false world0 =
  (Exit 1,
   mkWorld (files world0) None
     [EvDial "udp" "8.8.8.8:80"; EvDo (verifyGET "10.0.0.5");
      EvLog "Do : dial tcp: connect: connection refused"]).
Proof. reflexivity. Qed.

(** C7 at its failing input: the license server is unreachable for the
    verify GET.  With [dnsonly] set or not, the process exits with status 1
    and no POST has left. *)
Theorem CheckLicense_sends_no_POST_when_unreachable :
  fst (CheckLicense hostServerDown defaultConfiguration true world0) = Exit 1 /\
  posts (trace (snd (CheckLicense hostServerDown defaultConfiguration true world0))) = [] /\
  fst (CheckLicense hostServerDown defaultConfiguration false world0) = Exit 1 /\
  posts (trace (snd (CheckLicense hostServerDown defaultConfiguration false world0))) = [].
Proof. repeat split; reflexivity. Qed.

(** ** Reading and writing the configuration file *)

Lemma prefix_append (b rest : string) : String.prefix b (b +:+ rest) = true.
Proof.
  induction b as [| ch b IH]; simpl.
  - now destruct rest.
  - destruct (ascii_dec ch ch); [exact IH | contradiction].
Qed.

Lemma bind_inv {A B} (m : M A) (f : A -> M B) (w w' : World) (b : B) :
  (m ≫= f) w = (Ok b, w') ->
  exists a w1, m w = (Ok a, w1) /\ f a w1 = (Ok b, w').
Proof.
  unfold mbind, M_bind. destruct (m w) as [[a | code | msg] w1]; intros H.
  - now exists a, w1.
  - discriminate.
  - discriminate.
Qed.

(** The defaults, and what decoding a document over them would keep. *)
Lemma decode_over_defaults (doc : YamlDoc) :
  (y_panel doc = None ->
   Panel (decode doc (SetDefaults emptyConfiguration)) = Some (mkPanelConfiguration 1334)) /\
  (forall p, y_panel doc = Some (mkYamlPanel (Some p)) ->
   Panel (decode doc (SetDefaults emptyConfiguration)) = Some (mkPanelConfiguration p)).
Proof.
  split; [intros H | intros p H]; unfold decode; now rewrite H.
Qed.

Section Config.

Variable env : Env.

(** [ReadConfiguration] decodes into an empty structure. *)
Lemma ReadConfiguration_parsed (path text : string) (doc : YamlDoc) (w : World) :
  fs_fault env (trace w) OpRead path = None ->
  files w !! path = Some text ->
  yaml_parse env (os_ExpandEnv env text) = inl doc ->
  ReadConfiguration env path w = (Ok (Some (decode doc emptyConfiguration), None), w).
Proof.
  intros Hfault Hfile Hparse.
  unfold ReadConfiguration, ioutil_ReadFile, yaml_Unmarshal, mbind, M_bind.
  now rewrite Hfault, Hfile, Hparse.
Qed.

Lemma decode_empty_sections (doc : YamlDoc) :
  (y_system doc = None -> System (decode doc emptyConfiguration) = None) /\
  (y_panel doc = None -> Panel (decode doc emptyConfiguration) = None).
Proof. split; intros H; unfold decode; now rewrite H. Qed.

Lemma EnsureUser_nil_System (c : Configuration) (w : World) :
  System c = None -> EnsureUser env c w = (Panic nil_dereference, w).
Proof. intros H. unfold EnsureUser. now rewrite H. Qed.

(** [WriteToDisk] makes no call that is traced, and touches one file. *)
Lemma WriteToDisk_trace (c : Configuration) (w : World) :
  trace (snd (WriteToDisk env c w)) = trace w /\
  logger (snd (WriteToDisk env c w)) = logger w.
Proof.
  unfold WriteToDisk, os_OpenFile_WRONLY, File_Write, mbind, M_bind, mret, M_ret.
  destruct (fs_fault env (trace w) OpOpen "config.yml"); [now split |].
  destruct (files w !! "config.yml"); [| now split].
  destruct (yaml_Marshal env c); [| now split].
  destruct (fs_fault env (trace w) OpWrite "config.yml"); now split.
Qed.

Lemma WriteToDisk_other_files (c : Configuration) (w : World) (path : string) :
  path <> "config.yml" ->
  files (snd (WriteToDisk env c w)) !! path = files w !! path.
Proof.
  intros Hne.
  unfold WriteToDisk, os_OpenFile_WRONLY, File_Write, mbind, M_bind, mret, M_ret.
  destruct (fs_fault env (trace w) OpOpen "config.yml"); [reflexivity |].
  destruct (files w !! "config.yml"); [| reflexivity].
  destruct (yaml_Marshal env c); [| reflexivity].
  destruct (fs_fault env (trace w) OpWrite "config.yml"); [reflexivity |].
  simpl. now rewrite lookup_insert_ne.
Qed.

Lemma WriteToDisk_success (c : Configuration) (w w' : World) :
  WriteToDisk env c w = (Ok None, w') -> persisted env c w' = true.
Proof.
  unfold WriteToDisk, os_OpenFile_WRONLY, File_Write, mbind, M_bind, mret, M_ret.
  destruct (fs_fault env (trace w) OpOpen "config.yml"); [discriminate |].
  destruct (files w !! "config.yml") as [old |]; [| discriminate].
  unfold persisted.
  destruct (yaml_Marshal env c) as [b | e]; [| discriminate].
  destruct (fs_fault env (trace w) OpWrite "config.yml"); [discriminate |].
  intros [= <-]. simpl. rewrite lookup_insert_eq.
  unfold overwrite. apply prefix_append.
Qed.

(** Every failure of [WriteToDisk] is handed to the caller. *)
Lemma WriteToDisk_returns (c : Configuration) (w : World) :
  exists err, fst (WriteToDisk env c w) = Ok err.
Proof.
  unfold WriteToDisk, os_OpenFile_WRONLY, File_Write, mbind, M_bind, mret, M_ret.
  destruct (fs_fault env (trace w) OpOpen "config.yml"); [now eexists |].
  destruct (files w !! "config.yml"); [| now eexists].
  destruct (yaml_Marshal env c); [| now eexists].
  destruct (fs_fault env (trace w) OpWrite "config.yml"); now eexists.
Qed.

Lemma SetSystemUser_trace (c : Configuration) (u : user.User) (w : World) :
  trace (snd (SetSystemUser env c u w)) = trace w.
Proof.
  unfold SetSystemUser.
  destruct (strconv_Atoi (user.Uid u)) as [uid ?].
  destruct (strconv_Atoi (user.Gid u)) as [gid ?].
  destruct (System c) as [s |]; [| reflexivity].
  unfold mbind, M_bind.
  match goal with
  | |- context [WriteToDisk env ?c' w] =>
      pose proof (proj1 (WriteToDisk_trace c' w)) as Htr;
      destruct (WriteToDisk env c' w) as [[err | code | msg] w1]
  end; exact Htr.
Qed.

Lemma SetSystemUser_success (c c' : Configuration) (u : user.User) (w w' : World) :
  SetSystemUser env c u w = (Ok (c', None), w') ->
  persisted env c' w' = true /\
  exists s',
    System c' = Some s' /\
    Uid (User s') = fst (strconv_Atoi (user.Uid u)) /\
    Gid (User s') = fst (strconv_Atoi (user.Gid u)) /\
    Username s' = user.Username u.
Proof.
  unfold SetSystemUser.
  destruct (strconv_Atoi (user.Uid u)) as [uid ?].
  destruct (strconv_Atoi (user.Gid u)) as [gid ?].
  destruct (System c) as [s |]; [| discriminate].
  intros H. apply bind_inv in H as (err & w1 & Hwrite & Hret).
  injection Hret as <- -> <-.
  split; [now apply WriteToDisk_success with (w := w) |].
  eexists; repeat split.
Qed.

End Config.

(** ** The service account *)

(** C5: when [EnsureUser] returns without an error, it returns a user, the
    configuration it leaves holds that user's uid and gid as numbers, and
    [config.yml], the file [WriteToDisk] writes, already starts with the
    serialization of that configuration in the world the call returns in. *)
Theorem EnsureUser_success_is_persisted
    (env : Env) (c c' : Configuration) (ou : option user.User) (w w' : World) :
  EnsureUser env c w = (Ok (c', (ou, None)), w') ->
  exists u s',
    ou = Some u /\
    System c' = Some s' /\
    Uid (User s') = fst (strconv_Atoi (user.Uid u)) /\
    Gid (User s') = fst (strconv_Atoi (user.Gid u)) /\
    persisted env c' w' = true.
Proof.
  unfold EnsureUser. destruct (System c) as [s |]; [| discriminate].
  intros H. apply bind_inv in H as (r & w1 & _ & H).
  assert (Hset : forall u wa,
             (SetSystemUser env c u ≫=
                (fun '(c0, err) => mret (c0, (Some u, err)))) wa
             = (Ok (c', (ou, None)), w') ->
             exists u s',
               ou = Some u /\ System c' = Some s' /\
               Uid (User s') = fst (strconv_Atoi (user.Uid u)) /\
               Gid (User s') = fst (strconv_Atoi (user.Gid u)) /\
               persisted env c' w' = true).
  { intros u wa Hb. apply bind_inv in Hb as ([c1 err] & w2 & Hs & Hret).
    injection Hret as -> <- -> ->.
    apply SetSystemUser_success in Hs as (Hp & s' & Hsys & Hu & Hg & _).
    now exists u, s'. }
  destruct r as [u | e]; [exact (Hset u w1 H) |].
  destruct (is_UnknownUserError e); simpl in H; [| discriminate].
  apply bind_inv in H as (r & w2 & _ & H).
  destruct r as [out | e2]; [| discriminate].
  apply bind_inv in H as (r & w3 & _ & H).
  destruct r as [u | e3]; [exact (Hset u w3 H) | discriminate].
Qed.

Lemma EnsureUser_success_witness :
  EnsureUser hostLicensed defaultConfiguration world0 =
  (Ok (resolvedConfiguration, (Some panelUser, None)),
   snd (EnsureUser hostLicensed defaultConfiguration world0)) /\
  persisted hostLicensed resolvedConfiguration
    (snd (EnsureUser hostLicensed defaultConfiguration world0)) = true.
Proof.
  split; [reflexivity |].
  destruct (EnsureUser_success_is_persisted
              hostLicensed defaultConfiguration resolvedConfiguration (Some panelUser)
              world0 (snd (EnsureUser hostLicensed defaultConfiguration world0))
              eq_refl)
    as (u & s' & _ & _ & _ & _ & Hp).
  exact Hp.
Defined.

(** The account is missing: one [useradd], a second lookup, and the file
    holds the new ids. *)
Example EnsureUser_creates_the_account :
  fst (EnsureUser hostFresh defaultConfiguration world0) =
  Ok (resolvedConfiguration, (Some panelUser, None)) /\
  trace (snd (EnsureUser hostFresh defaultConfiguration world0)) =
  [EvLookup "cosmicpanel";
   EvExec "useradd"
     ["--system"; "--no-create-home"; "--shell"; "/bin/false"; "cosmicpanel"];
   EvLookup "cosmicpanel"] /\
  files (snd (EnsureUser hostFresh defaultConfiguration world0)) !! "config.yml" =
  Some (render_yaml resolvedConfiguration).
Proof. repeat split; reflexivity. Qed.

(** C6: [EnsureUser] starts a command only after the first lookup failed
    with [user.UnknownUserError].  A lookup that fails with any other error
    ends the call: that error is returned with a nil user, the configuration
    and the files are as before, and the lookup is the only call made. *)
Theorem EnsureUser_creates_only_unknown_users
    (env : Env) (c : Configuration) (s : SystemConfiguration) (w : World) :
  System c = Some s ->
  (forall e,
      user_Lookup env (trace w) (Username s) = inr e ->
      is_UnknownUserError e = false ->
      EnsureUser env c w =
      (Ok (c, (None, Some e)),
       mkWorld (files w) (logger w) (trace w ++ [EvLookup (Username s)]))) /\
  (execs (trace (snd (EnsureUser env c w))) <> execs (trace w) ->
   exists name, user_Lookup env (trace w) (Username s) = inr (UnknownUserError name)).
Proof.
  intros Hsys. split.
  - intros e Hl He. unfold EnsureUser, user_lookup, mbind, M_bind.
    now rewrite Hsys, Hl, He.
  - unfold EnsureUser. rewrite Hsys.
    rewrite (bind_Ok (user_lookup env (Username s)) _ w _ _ eq_refl).
    destruct (user_Lookup env (trace w) (Username s)) as [u | e] eqn:Hl.
    + intros Hex. exfalso. apply Hex. unfold mbind, M_bind.
      match goal with
      | |- context [SetSystemUser env c u ?w1] =>
          pose proof (SetSystemUser_trace env c u w1) as Htr;
          destruct (SetSystemUser env c u w1) as [[[c1 err] | code | msg] w2]
      end; simpl in *; rewrite Htr, execs_app; simpl; apply List.app_nil_r.
    + destruct e as [name | msg]; [intros _; now exists name |].
      simpl. rewrite execs_app. simpl. rewrite List.app_nil_r. congruence.
Qed.

Lemma EnsureUser_propagates_witness :
  System defaultConfiguration =
  Some (mkSystemConfiguration "/usr/local/cosmicpanel" "cosmicpanel" (mkUserIds 0 0)) /\
  EnsureUser hostDenied defaultConfiguration world0 =
  (Ok (defaultConfiguration,
       (None, Some (errorString "open /etc/passwd: permission denied"))),
   mkWorld (files world0) None [EvLookup "cosmicpanel"]).
Proof.
  split; [reflexivity |].
  exact (proj1 (EnsureUser_creates_only_unknown_users
                  hostDenied defaultConfiguration _ world0 eq_refl)
           (errorString "open /etc/passwd: permission denied") eq_refl eq_refl).
Defined.

(** ** Defaults *)

(** [main] up to [EnsureUser] when [config.yml] has no [system] section. *)
Lemma main_panics_without_system
    (env : Env) (args : list string) (text : string) (doc : YamlDoc) (w : World) :
  flag_Parse env args = None ->
  logger w = None ->
  fs_fault env (trace w) OpRead "config.yml" = None ->
  files w !! "config.yml" = Some text ->
  yaml_parse env (os_ExpandEnv env text) = inl doc ->
  y_system doc = None ->
  zap_Build env (Debug (decode doc emptyConfiguration)) = None ->
  fst (main env args w) = Panic nil_dereference.
Proof.
  intros Hflag Hlog Hfault Hfile Hparse Hsys Hzap.
  unfold main, flag_parse. rewrite Hflag.
  rewrite (bind_Ok (mret tt) _ w w tt eq_refl).
  assert (Hz : zap_S InfoLevel
                 ("Using configuration file: " +:+ "config.yml") w = (Ok tt, w))
    by (unfold zap_S; now rewrite Hlog).
  rewrite (bind_Ok _ _ _ _ _ Hz).
  rewrite (bind_Ok _ _ _ _ _
             (ReadConfiguration_parsed env "config.yml" text doc w Hfault Hfile Hparse)).
  cbv beta iota zeta.
  unfold ConfigureLogging. rewrite Hzap.
  assert (Hnil : System (decode doc emptyConfiguration) = None)
    by (apply decode_empty_sections; exact Hsys).
  generalize dependent (decode doc emptyConfiguration). intros c _ Hnil.
  unfold zap_ReplaceGlobals, zap_S, mbind, M_bind, mret, M_ret. simpl.
  destruct (Debug c); simpl; now rewrite EnsureUser_nil_System.
Qed.

(** C9: [ReadConfiguration] applies no defaults.  A file that reads and
    parses gives a configuration whose [System] pointer is nil when the file
    has no [system] section and whose [Panel] pointer is nil when it has no
    [panel] section; [EnsureUser] on a configuration with a nil [System]
    panics with a nil pointer dereference; and [main], which calls
    [EnsureUser] on what [ReadConfiguration] returned, panics that way on a
    [config.yml] without a [system] section. *)
Theorem ReadConfiguration_applies_no_defaults
    (env : Env) (path text : string) (doc : YamlDoc) (w : World) :
  fs_fault env (trace w) OpRead path = None ->
  files w !! path = Some text ->
  yaml_parse env (os_ExpandEnv env text) = inl doc ->
  exists c,
    ReadConfiguration env path w = (Ok (Some c, None), w) /\
    (y_system doc = None -> System c = None) /\
    (y_panel doc = None -> Panel c = None) /\
    (System c = None -> forall w', EnsureUser env c w' = (Panic nil_dereference, w')) /\
    (forall args,
        y_system doc = None -> path = "config.yml" -> logger w = None ->
        flag_Parse env args = None -> zap_Build env (Debug c) = None ->
        fst (main env args w) = Panic nil_dereference).
Proof.
  intros Hfault Hfile Hparse.
  exists (decode doc emptyConfiguration).
  split; [now apply ReadConfiguration_parsed with (text := text) |].
  destruct (decode_empty_sections doc) as [Hs Hp].
  repeat split; auto.
  - intros Hnil w'. now apply EnsureUser_nil_System.
  - intros args Hsys -> Hlog Hflag Hzap.
    now apply main_panics_without_system with (text := text) (doc := doc).
Qed.

Lemma ReadConfiguration_no_defaults_witness :
  files worldOnlyDebug !! "config.yml" = Some yamlOnlyDebug /\
  ReadConfiguration hostLicensed "config.yml" worldOnlyDebug =
  (Ok (Some (mkConfiguration true None None None), None), worldOnlyDebug) /\
  EnsureUser hostLicensed (mkConfiguration true None None None) worldOnlyDebug =
  (Panic nil_dereference, worldOnlyDebug) /\
  fst (main hostLicensed [] worldOnlyDebug) = Panic nil_dereference.
Proof.
  destruct (ReadConfiguration_applies_no_defaults
              hostLicensed "config.yml" yamlOnlyDebug
              (mkYamlDoc (Some true) None None None) worldOnlyDebug
              eq_refl eq_refl eq_refl)
    as (c & Hread & Hsys & _ & Hnil & Hmain).
  assert (Hc : c = mkConfiguration true None None None).
  { assert (Hr : ReadConfiguration hostLicensed "config.yml" worldOnlyDebug =
                 (Ok (Some (mkConfiguration true None None None), None), worldOnlyDebug))
      by reflexivity.
    rewrite Hr in Hread. now injection Hread. }
  subst c.
  split; [reflexivity |]. split; [exact Hread |].
  split; [exact (Hnil eq_refl worldOnlyDebug) |].
  exact (Hmain [] eq_refl eq_refl eq_refl eq_refl eq_refl).
Defined.

(** C3 at its failing input: the defaults hold port 1334, and loading a
    [config.yml] that only says [debug: true] gives a configuration with a nil
    [Panel] and a nil [System], since [ReadConfiguration] decodes into an
    empty structure of its own.  A file with [panel.port: 2000] does give
    port 2000. *)
Theorem ReadConfiguration_loses_the_defaults :
  Panel (SetDefaults emptyConfiguration) = Some (mkPanelConfiguration 1334) /\
  ReadConfiguration hostLicensed "config.yml" worldOnlyDebug =
  (Ok (Some (mkConfiguration true None None None), None), worldOnlyDebug) /\
  ReadConfiguration hostLicensed "custom.yml" worldCustom =
  (Ok (Some (mkConfiguration false None (Some (mkPanelConfiguration 2000)) None), None),
   worldCustom).
Proof. repeat split; reflexivity. Qed.

(** C4 at its failing input: the configuration is loaded from [custom.yml].
    [WriteToDisk] succeeds, [custom.yml] holds what it held, and the
    serialization went into [config.yml]; where there is no [config.yml] the
    call returns an error and writes nothing. *)
Theorem WriteToDisk_ignores_the_loaded_path :
  ReadConfiguration hostLicensed "custom.yml" worldCustom =
  (Ok (Some customConfiguration, None), worldCustom) /\
  fst (WriteToDisk hostLicensed customConfiguration worldCustom) = Ok None /\
  files (snd (WriteToDisk hostLicensed customConfiguration worldCustom)) !! "custom.yml" =
  Some yamlOnlyPanel /\
  files (snd (WriteToDisk hostLicensed customConfiguration worldCustom)) !! "config.yml" =
  Some (render_yaml customConfiguration) /\
  WriteToDisk hostLicensed customConfiguration worldNoConfigYml =
  (Ok (Some (errorString "open config.yml: no such file or directory")),
   worldNoConfigYml).
Proof. repeat split; reflexivity. Qed.

(** * Further properties *)

(** ** What a computation leaves alone *)

Section Stable.

Context {X : Type} (obs : World -> X).

Lemma stable_ret {A} (a : A) : stable obs (mret a : M A).
Proof. intros w. reflexivity. Qed.

Lemma stable_Exit {A} (code : Z) : stable obs (os_Exit code : M A).
Proof. intros w. reflexivity. Qed.

Lemma stable_panic {A} (msg : string) : stable obs (panic msg : M A).
Proof. intros w. reflexivity. Qed.

Lemma stable_bind {A B} (m : M A) (f : A -> M B) :
  stable obs m -> (forall a, stable obs (f a)) -> stable obs (m ≫= f).
Proof.
  intros Hm Hf w. unfold mbind, M_bind.
  specialize (Hm w). destruct (m w) as [[a | code | msg] w1]; simpl in *.
  - now rewrite Hf.
  - exact Hm.
  - exact Hm.
Qed.

Lemma stable_emit (ev : Event) : ignores obs ev -> stable obs (emit ev).
Proof. intros H [fs lg tr]. apply H. Qed.

Lemma stable_log_Fatal {A} (msg : string) :
  ignores obs (EvLog msg) -> stable obs (log_Fatal (A:=A) msg).
Proof. intros H [fs lg tr]. apply H. Qed.

Lemma stable_zap_S (lvl : Level) (msg : string) :
  ignores obs (EvZap lvl msg) -> stable obs (zap_S lvl msg).
Proof.
  intros H [fs lg tr]. unfold zap_S. simpl.
  destruct lg as [dev |]; [| reflexivity].
  destruct (zap_enabled dev lvl); [apply H | reflexivity].
Qed.

Lemma stable_zap_Panicw {A} (msg : string) :
  ignores obs (EvZap PanicLevel msg) -> stable obs (zap_Panicw (A:=A) msg).
Proof.
  intros H. apply stable_bind; [now apply stable_zap_S | intros _; apply stable_panic].
Qed.

Lemma stable_net_dial (env : Env) (network address : string) :
  ignores obs (EvDial network address) -> stable obs (net_dial env network address).
Proof. intros H [fs lg tr]. apply H. Qed.

Lemma stable_client_Do (env : Env) (req : Request) :
  ignores obs (EvDo req) -> stable obs (client_Do env req).
Proof. intros H [fs lg tr]. apply H. Qed.

Lemma stable_user_lookup (env : Env) (name : string) :
  ignores obs (EvLookup name) -> stable obs (user_lookup env name).
Proof. intros H [fs lg tr]. apply H. Qed.

Lemma stable_exec (env : Env) (name : string) (args : list string) :
  ignores obs (EvExec name args) -> stable obs (exec_Command_Output env name args).
Proof. intros H [fs lg tr]. apply H. Qed.

Lemma stable_ReadFile (env : Env) (path : string) : stable obs (ioutil_ReadFile env path).
Proof.
  intros w. unfold ioutil_ReadFile.
  destruct (fs_fault env (trace w) OpRead path); [reflexivity |].
  now destruct (files w !! path).
Qed.

Lemma stable_OpenFile (env : Env) (path : string) :
  stable obs (os_OpenFile_WRONLY env path).
Proof.
  intros w. unfold os_OpenFile_WRONLY.
  destruct (fs_fault env (trace w) OpOpen path); [reflexivity |].
  now destruct (files w !! path).
Qed.

Lemma stable_File_Write (env : Env) (f b : string) :
  ignores_file obs f -> stable obs (File_Write env f b).
Proof.
  intros H [fs lg tr]. unfold File_Write. simpl.
  destruct (fs_fault env tr OpWrite f); [reflexivity | apply H].
Qed.

Lemma stable_ReplaceGlobals (dev : bool) :
  ignores_logger obs -> stable obs (zap_ReplaceGlobals dev).
Proof. intros H [fs lg tr]. apply H. Qed.

End Stable.

(** Goals [stable obs m]: through binds and case distinctions down to the
    library calls, whose side conditions are left to [tac]. *)
Ltac stable_with tac :=
  repeat match goal with
    | |- forall _, _ => intro
    | |- stable _ (mret _) => apply stable_ret
    | |- stable _ (os_Exit _) => apply stable_Exit
    | |- stable _ (panic _) => apply stable_panic
    | |- stable _ (mbind _ _) => apply stable_bind
    | |- stable _ (emit _) => apply stable_emit; tac
    | |- stable _ (log_Println _) => apply stable_emit; tac
    | |- stable _ (fmt_Println _) => apply stable_emit; tac
    | |- stable _ (log_Fatal _) => apply stable_log_Fatal; tac
    | |- stable _ (zap_S _ _) => apply stable_zap_S; tac
    | |- stable _ (zap_Panicw _) => apply stable_zap_Panicw; tac
    | |- stable _ (net_dial _ _ _) => apply stable_net_dial; tac
    | |- stable _ (client_Do _ _) => apply stable_client_Do; tac
    | |- stable _ (user_lookup _ _) => apply stable_user_lookup; tac
    | |- stable _ (exec_Command_Output _ _ _) => apply stable_exec; tac
    | |- stable _ (ioutil_ReadFile _ _) => apply stable_ReadFile
    | |- stable _ (zap_ReplaceGlobals _) => apply stable_ReplaceGlobals; tac
    | |- stable _ (match ?x with _ => _ end) => destruct x
    | |- stable _ (let '(_, _) := ?x in _) => destruct x
    end.

Section StableProgram.

Context {X : Type} (obs : World -> X) (env : Env).

Lemma stable_WriteToDisk (c : Configuration) :
  ignores_file obs "config.yml" -> stable obs (WriteToDisk env c).
Proof.
  intros H w. unfold WriteToDisk, os_OpenFile_WRONLY, mbind, M_bind, mret, M_ret.
  destruct (fs_fault env (trace w) OpOpen "config.yml"); [reflexivity |].
  destruct (files w !! "config.yml"); [| reflexivity].
  destruct (yaml_Marshal env c) as [b | e]; [| reflexivity].
  pose proof (stable_File_Write obs env "config.yml" b H w) as Hw.
  destruct (File_Write env "config.yml" b w) as [[[e |] | code | msg] w1]; exact Hw.
Qed.

Lemma stable_SetSystemUser (c : Configuration) (u : user.User) :
  ignores_file obs "config.yml" -> stable obs (SetSystemUser env c u).
Proof.
  intros H. unfold SetSystemUser.
  destruct (strconv_Atoi (user.Uid u)), (strconv_Atoi (user.Gid u)).
  destruct (System c); [| apply stable_panic].
  apply stable_bind; [now apply stable_WriteToDisk | intros; apply stable_ret].
Qed.

Lemma stable_EnsureUser (c : Configuration) :
  ignores_file obs "config.yml" ->
  (forall name, ignores obs (EvLookup name)) ->
  (forall name args, ignores obs (EvExec name args)) ->
  stable obs (EnsureUser env c).
Proof.
  intros Hf Hl He. unfold EnsureUser.
  stable_with ltac:(first [apply Hl | apply He]).
  all: now apply stable_SetSystemUser.
Qed.

Lemma stable_GetOutboundIP :
  (forall network address, ignores obs (EvDial network address)) ->
  stable obs (GetOutboundIP env).
Proof. intros H. unfold GetOutboundIP. stable_with ltac:(apply H). Qed.

Lemma stable_requestLicense (c : Configuration) (licenseType : Z) :
  (forall network address, ignores obs (EvDial network address)) ->
  (forall req, ignores obs (EvDo req)) ->
  (forall msg, ignores obs (EvLog msg)) ->
  (forall msg, ignores obs (EvStdout msg)) ->
  stable obs (requestLicense env c licenseType).
Proof.
  intros Hd Hr Hl Hs. unfold requestLicense, fmt_Println.
  apply stable_bind; [now apply stable_GetOutboundIP |].
  stable_with ltac:(first [apply Hd | apply Hr | apply Hl | apply Hs]).
Qed.

Lemma stable_RequestNewLicense (c : Configuration) (dnsonly : bool) :
  (forall network address, ignores obs (EvDial network address)) ->
  (forall req, ignores obs (EvDo req)) ->
  (forall msg, ignores obs (EvLog msg)) ->
  (forall msg, ignores obs (EvStdout msg)) ->
  stable obs (RequestNewLicense env c dnsonly).
Proof.
  intros Hd Hr Hl Hs. unfold RequestNewLicense, RequestDNSONLYLicense, RequestTrialLicense.
  destruct dnsonly; now apply stable_requestLicense.
Qed.

Lemma stable_CheckLicense (c : Configuration) (dnsonly : bool) :
  (forall network address, ignores obs (EvDial network address)) ->
  (forall req, ignores obs (EvDo req)) ->
  (forall msg, ignores obs (EvLog msg)) ->
  (forall msg, ignores obs (EvStdout msg)) ->
  stable obs (CheckLicense env c dnsonly).
Proof.
  intros Hd Hr Hl Hs. unfold CheckLicense, log_Println.
  apply stable_bind; [now apply stable_GetOutboundIP |].
  intros ip. destruct (negb (ip =? "")%string); [| apply stable_ret].
  destruct (http_NewRequest env "GET" _ None) as [req | err].
  - apply stable_bind; [apply stable_client_Do, Hr |].
    intros [resp | err].
    + destruct (json_Decode env (Body resp)); [apply stable_ret |].
      apply stable_bind; [apply stable_emit, Hl |]. intros _.
      apply stable_bind; [now apply stable_RequestNewLicense | intros; apply stable_ret].
    + apply stable_bind; [apply stable_log_Fatal, Hl |]. intros _.
      apply stable_bind; [now apply stable_RequestNewLicense | intros; apply stable_ret].
  - apply stable_bind; [apply stable_log_Fatal, Hl |]. intros _.
    apply stable_bind; [now apply stable_RequestNewLicense | intros; apply stable_ret].
Qed.

End StableProgram.

Lemma ignores_filter (p : Event -> bool) (ev : Event) :
  p ev = false -> ignores (fun w => List.filter p (trace w)) ev.
Proof.
  intros H fs lg tr. simpl. rewrite List.filter_app. simpl. rewrite H.
  apply List.app_nil_r.
Qed.

(** ** Strings *)

Lemma append_cons (ch : ascii) (s t : string) :
  String ch s +:+ t = String ch (s +:+ t).
Proof. reflexivity. Qed.

Lemma length_append (s1 s2 : string) :
  String.length (s1 +:+ s2) = (String.length s1 + String.length s2)%nat.
Proof.
  induction s1 as [| ch s1 IH]; [reflexivity |].
  rewrite append_cons. simpl. now f_equal.
Qed.

Lemma substring_all (s : string) : String.substring 0 (String.length s) s = s.
Proof. induction s as [| ch s IH]; simpl; [reflexivity | now f_equal]. Qed.

Lemma substring_length (n m : nat) (s : string) :
  String.length (String.substring n m s) = Nat.min m (String.length s - n).
Proof.
  revert n m. induction s as [| ch s IH]; intros [| n] [| m]; simpl; try reflexivity.
  - now rewrite IH, Nat.sub_0_r.
  - apply IH.
  - apply IH.
Qed.

Lemma substring_nothing (n : nat) (s : string) : String.substring n 0 s = "".
Proof. revert n. induction s as [| ch s IH]; intros [| n]; simpl; auto. Qed.

Lemma substring_skip (b rest : string) (m : nat) :
  String.substring (String.length b) m (b +:+ rest) = String.substring 0 m rest.
Proof.
  induction b as [| ch b IH]; [reflexivity |].
  rewrite append_cons. simpl. exact IH.
Qed.

Lemma append_empty (s : string) : s +:+ "" = s.
Proof.
  induction s as [| ch s IH]; [reflexivity |].
  rewrite append_cons. now f_equal.
Qed.

(** Writing the same bytes twice is writing them once. *)
Lemma overwrite_twice (b old : string) : overwrite b (overwrite b old) = overwrite b old.
Proof.
  unfold overwrite at 1. unfold overwrite at 2. rewrite substring_skip.
  unfold overwrite at 1. rewrite length_append.
  replace (String.length b + _ - String.length b)%nat
    with (String.length
            (String.substring (String.length b)
               (String.length old - String.length b) old)) by lia.
  now rewrite substring_all.
Qed.

Lemma overwrite_length (b old : string) :
  String.length (overwrite b old) = Nat.max (String.length b) (String.length old).
Proof. unfold overwrite. rewrite length_append, substring_length. lia. Qed.

Lemma overwrite_longer (b old : string) :
  (String.length old <= String.length b)%nat -> overwrite b old = b.
Proof.
  intros H. unfold overwrite.
  replace (String.length old - String.length b)%nat with 0%nat by lia.
  now rewrite substring_nothing, append_empty.
Qed.

(** ** The configuration file *)

(** X1: [ReadConfiguration] only reads: it returns in the world it was
    called in, with either a configuration and no error or an error and no
    configuration; a path that names no file gives the error. *)
Theorem ReadConfiguration_only_reads (env : Env) (path : string) (w : World) :
  exists oc oerr,
    ReadConfiguration env path w = (Ok (oc, oerr), w) /\
    ((exists c, oc = Some c /\ oerr = None) \/ (exists e, oc = None /\ oerr = Some e)) /\
    (files w !! path = None -> oc = None).
Proof.
  unfold ReadConfiguration, ioutil_ReadFile, yaml_Unmarshal, mbind, M_bind, mret, M_ret.
  destruct (fs_fault env (trace w) OpRead path) as [e |].
  - exists None, (Some e). eauto 6.
  - destruct (files w !! path) as [text |].
    + destruct (yaml_parse env (os_ExpandEnv env text)) as [doc | e].
      * eexists _, None. split; [reflexivity |]. split; [eauto | discriminate].
      * exists None, (Some e). eauto 6.
    + eexists None, (Some _). eauto 6.
Qed.

Lemma WriteToDisk_written (env : Env) (c : Configuration) (w w' : World) :
  WriteToDisk env c w = (Ok None, w') ->
  exists b old,
    yaml_Marshal env c = inl b /\
    files w !! "config.yml" = Some old /\
    w' = mkWorld (<["config.yml" := overwrite b old]> (files w)) (logger w) (trace w).
Proof.
  unfold WriteToDisk, os_OpenFile_WRONLY, File_Write, mbind, M_bind, mret, M_ret.
  destruct (fs_fault env (trace w) OpOpen "config.yml"); [discriminate |].
  destruct (files w !! "config.yml") as [old |] eqn:Hold; [| discriminate].
  destruct (yaml_Marshal env c) as [b | e]; [| discriminate].
  destruct (fs_fault env (trace w) OpWrite "config.yml"); [discriminate |].
  intros [= <-]. exists b, old. now rewrite Hold.
Qed.

(** X2: [WriteToDisk] does not truncate.  After a write that succeeded,
    [config.yml] holds the serialization followed by what the old content
    had beyond its length: it is as long as the longer of the two, and it is
    the serialization when the old content was not longer. *)
Theorem WriteToDisk_keeps_the_stale_tail
    (env : Env) (c : Configuration) (w w' : World) :
  WriteToDisk env c w = (Ok None, w') ->
  exists b old,
    yaml_Marshal env c = inl b /\
    files w !! "config.yml" = Some old /\
    files w' = <["config.yml" := overwrite b old]> (files w) /\
    String.length (overwrite b old) = Nat.max (String.length b) (String.length old) /\
    ((String.length old <= String.length b)%nat -> overwrite b old = b) /\
    overwrite b old =
    b +:+ String.substring (String.length b)
            (String.length old - String.length b) old.
Proof.
  intros H. apply WriteToDisk_written in H as (b & old & Hb & Hold & ->).
  exists b, old. simpl. repeat split; auto.
  - apply overwrite_length.
  - apply overwrite_longer.
Qed.

Lemma WriteToDisk_stale_tail_witness :
  fst (WriteToDisk hostLicensed emptyConfiguration worldLongFile) = Ok None /\
  exists b old,
    yaml_Marshal hostLicensed emptyConfiguration = inl b /\
    files worldLongFile !! "config.yml" = Some old /\
    files (snd (WriteToDisk hostLicensed emptyConfiguration worldLongFile)) =
    <["config.yml" := overwrite b old]> (files worldLongFile) /\
    String.length (overwrite b old) = Nat.max (String.length b) (String.length old).
Proof.
  assert (Hrun : WriteToDisk hostLicensed emptyConfiguration worldLongFile =
                 (Ok None, snd (WriteToDisk hostLicensed emptyConfiguration worldLongFile)))
    by (vm_compute; reflexivity).
  split; [exact (f_equal fst Hrun) |].
  destruct (WriteToDisk_keeps_the_stale_tail
              hostLicensed emptyConfiguration worldLongFile
              (snd (WriteToDisk hostLicensed emptyConfiguration worldLongFile)) Hrun)
    as (b & old & Hb & Hold & Hfiles & Hlen & _).
  exists b, old. repeat split; assumption.
Defined.

(** The empty configuration written over a longer file: the end of the old
    content stays behind the new one. *)
Example WriteToDisk_leaves_old_lines :
  files (snd (WriteToDisk hostLicensed emptyConfiguration worldLongFile)) !! "config.yml" =
  Some (render_yaml emptyConfiguration +:+
        "  username: cosmicpanel" +:+ nl +:+
        "  user:" +:+ nl +:+ "    uid: 999" +:+ nl +:+ "    gid: 998" +:+ nl +:+
        "panel:" +:+ nl +:+ "  port: 1334" +:+ nl +:+ "license: null" +:+ nl).
Proof. vm_compute. reflexivity. Qed.

Lemma WriteToDisk_creates_no_file_aux (env : Env) (c : Configuration) (w : World) :
  dom (files (snd (WriteToDisk env c w))) = dom (files w) /\
  (files w !! "config.yml" = None ->
   exists e, WriteToDisk env c w = (Ok (Some e), w)).
Proof.
  unfold WriteToDisk, os_OpenFile_WRONLY, File_Write, mbind, M_bind, mret, M_ret.
  destruct (fs_fault env (trace w) OpOpen "config.yml") as [e |]; [now eauto |].
  destruct (files w !! "config.yml") as [old |] eqn:Hold; [| now eauto].
  split; [| discriminate].
  destruct (yaml_Marshal env c) as [b | e]; [| reflexivity].
  destruct (fs_fault env (trace w) OpWrite "config.yml"); [reflexivity |].
  simpl. apply dom_insert_lookup_L. now rewrite Hold.
Qed.

(** X3: [WriteToDisk] creates and removes no file: the names in the file
    system are the same after the call, and when there is no [config.yml]
    the call returns an error and leaves the world as it was. *)
Theorem WriteToDisk_creates_no_file (env : Env) (c : Configuration) (w : World) :
  dom (files (snd (WriteToDisk env c w))) = dom (files w) /\
  (files w !! "config.yml" = None ->
   exists e, WriteToDisk env c w = (Ok (Some e), w)).
Proof. apply WriteToDisk_creates_no_file_aux. Qed.

(** ** The service account, again *)

Lemma SetSystemUser_inv
    (env : Env) (c c' : Configuration) (u : user.User) (oerr : option error)
    (w w' : World) :
  SetSystemUser env c u w = (Ok (c', oerr), w') ->
  exists s,
    System c = Some s /\
    c' = mkConfiguration (Debug c)
           (Some (mkSystemConfiguration (Data s) (user.Username u)
                    (mkUserIds (fst (strconv_Atoi (user.Uid u)))
                       (fst (strconv_Atoi (user.Gid u))))))
           (Panel c) (License c) /\
    WriteToDisk env c' w = (Ok oerr, w').
Proof.
  unfold SetSystemUser.
  destruct (strconv_Atoi (user.Uid u)) as [uid ?].
  destruct (strconv_Atoi (user.Gid u)) as [gid ?].
  destruct (System c) as [s |]; [| discriminate].
  intros H. apply bind_inv in H as (err & w1 & Hwrite & Hret).
  injection Hret as <- <- <-. now exists s.
Qed.

(** The ways [EnsureUser] returns: with a nil user, before anything was
    recorded; or through [SetSystemUser], after lookups and commands that
    left the files alone. *)
Lemma EnsureUser_inv
    (env : Env) (c c' : Configuration) (ou : option user.User)
    (oerr : option error) (w w' : World) :
  EnsureUser env c w = (Ok (c', (ou, oerr)), w') ->
  (ou = None /\ c' = c /\ files w' = files w /\ exists e, oerr = Some e) \/
  (exists u wa,
      ou = Some u /\ files wa = files w /\
      SetSystemUser env c u wa = (Ok (c', oerr), w')).
Proof.
  unfold EnsureUser. destruct (System c) as [s |]; [| discriminate].
  intros H. apply bind_inv in H as (r & w1 & Hl1 & H).
  assert (Hf1 : files w1 = files w) by (now injection Hl1 as _ <-).
  assert (Hset : forall u wa,
             files wa = files w ->
             (SetSystemUser env c u ≫=
                (fun '(c0, err) => mret (c0, (Some u, err)))) wa
             = (Ok (c', (ou, oerr)), w') ->
             exists u wa,
               ou = Some u /\ files wa = files w /\
               SetSystemUser env c u wa = (Ok (c', oerr), w')).
  { intros u wa Hfa Hb. apply bind_inv in Hb as ([c1 err] & w2 & Hs & Hret).
    injection Hret as -> <- -> ->. now exists u, wa. }
  destruct r as [u | e]; [right; exact (Hset u w1 Hf1 H) |].
  destruct (is_UnknownUserError e); simpl in H.
  - apply bind_inv in H as (r & w2 & Hx & H).
    assert (Hf2 : files w2 = files w) by (injection Hx as _ <-; exact Hf1).
    destruct r as [out | e2].
    + apply bind_inv in H as (r & w3 & Hl2 & H).
      assert (Hf3 : files w3 = files w) by (injection Hl2 as _ <-; exact Hf2).
      destruct r as [u | e3]; [right; exact (Hset u w3 Hf3 H) |].
      injection H as <- <- <- <-. left. eauto.
    + injection H as <- <- <- <-. left. eauto.
  - injection H as <- <- <- <-. left. eauto.
Qed.





(** What [strings.Split] does to the command line of [EnsureUser]. *)
Lemma strings_Split_nonempty (s : string) (sep : ascii) : strings_Split s sep <> [].
Proof.
  destruct s as [| ch s]; simpl; [discriminate |].
  destruct (Ascii.eqb ch sep); [discriminate |].
  destruct (strings_Split s sep); discriminate.
Qed.

Lemma strings_Split_no_space (s : string) :
  has_space s = false -> strings_Split s " " = [s].
Proof.
  induction s as [| ch s IH]; simpl; [reflexivity |].
  destruct (Ascii.eqb ch " "); simpl; [discriminate |].
  intros H. now rewrite (IH H).
Qed.

Lemma strings_Split_join (s : string) :
  String.concat " " (strings_Split s " ") = s.
Proof.
  induction s as [| ch s IH]; [reflexivity |].
  pose proof (strings_Split_nonempty s " ") as Hne.
  simpl. destruct (Ascii.eqb_spec ch " ") as [-> | _].
  - destruct (strings_Split s " ") as [| x xs]; [contradiction |].
    change (String.concat " " ("" :: x :: xs))
      with ("" +:+ " " +:+ String.concat " " (x :: xs)).
    now rewrite IH.
  - destruct (strings_Split s " ") as [| x [| y ys]]; [contradiction | |].
    + simpl in *. now subst.
    + change (String.concat " " (String ch x :: y :: ys))
        with (String ch (x +:+ " " +:+ String.concat " " (y :: ys))).
      now rewrite <- IH.
Qed.

Lemma useradd_command_line (name : string) :
  strings_Split ("useradd --system --no-create-home --shell /bin/false " +:+ name) " " =
  "useradd" :: useradd_flags ++ strings_Split name " ".
Proof. reflexivity. Qed.

(** X6: when the first lookup says the user is unknown, [EnsureUser] starts
    one command and no other: [useradd] with the four fixed flags and then
    the configured user name cut at its spaces.  Joined by spaces these
    last arguments give the user name back, and a name without a space is
    one argument. *)
Theorem EnsureUser_useradd_command
    (env : Env) (c : Configuration) (s : SystemConfiguration) (name : string)
    (w : World) :
  System c = Some s ->
  user_Lookup env (trace w) (Username s) = inr (UnknownUserError name) ->
  execs (trace (snd (EnsureUser env c w))) =
  execs (trace w) ++
  [EvExec "useradd" (useradd_flags ++ strings_Split (Username s) " ")] /\
  String.concat " " (strings_Split (Username s) " ") = Username s /\
  (has_space (Username s) = false -> strings_Split (Username s) " " = [Username s]).
Proof.
  intros Hsys Hl. split; [| split; [apply strings_Split_join | apply strings_Split_no_space]].
  unfold EnsureUser. rewrite Hsys.
  rewrite (bind_Ok (user_lookup env (Username s)) _ w _ _ eq_refl), Hl.
  change (negb (is_UnknownUserError (UnknownUserError name))) with false. cbv iota.
  rewrite useradd_command_line.
  set (args := useradd_flags ++ strings_Split (Username s) " ").
  change ("useradd" :: useradd_flags ++ strings_Split (Username s) " ")
    with ("useradd" :: args).
  cbv iota.
  rewrite (bind_Ok (exec_Command_Output env "useradd" args) _ _ _ _ eq_refl).
  set (w2 := mkWorld _ _ (trace (mkWorld _ _ _) ++ [EvExec "useradd" args])).
  assert (Hx : execs (trace w2) = execs (trace w) ++ [EvExec "useradd" args]).
  { unfold w2. simpl. rewrite !execs_app. simpl. now rewrite List.app_nil_r. }
  destruct (exec_Output env _ "useradd" args) as [out | e]; [| exact Hx].
  rewrite (bind_Ok (user_lookup env (Username s)) _ w2 _ _ eq_refl).
  set (w3 := mkWorld _ _ (trace w2 ++ [EvLookup (Username s)])).
  assert (Hx3 : execs (trace w3) = execs (trace w) ++ [EvExec "useradd" args]).
  { unfold w3, w2. simpl. rewrite !execs_app. simpl. now rewrite !List.app_nil_r. }
  destruct (user_Lookup env (trace w2) (Username s)) as [u | e]; [| exact Hx3].
  rewrite <- Hx3.
  apply (stable_bind (fun w => execs (trace w))).
  - apply stable_SetSystemUser. intros fs lg tr b. reflexivity.
  - intros [c1 err]. apply stable_ret.
Qed.

Lemma EnsureUser_useradd_witness :
  user_Lookup hostFresh (trace world0) "cosmicpanel" =
  inr (UnknownUserError "cosmicpanel") /\
  execs (trace (snd (EnsureUser hostFresh defaultConfiguration world0))) =
  [] ++ [EvExec "useradd" (useradd_flags ++ strings_Split "cosmicpanel" " ")].
Proof.
  split; [reflexivity |].
  exact (proj1 (EnsureUser_useradd_command
                  hostFresh defaultConfiguration
                  (mkSystemConfiguration "/usr/local/cosmicpanel" "cosmicpanel"
                     (mkUserIds 0 0))
                  "cosmicpanel" world0 eq_refl eq_refl)).
Defined.

(** X7: a user that is found while [config.yml] is missing.  [EnsureUser]
    returns the user together with the error of [WriteToDisk]; the ids are
    in the configuration it returns and in no file. *)
Theorem EnsureUser_returns_user_and_write_error
    (env : Env) (c : Configuration) (s : SystemConfiguration) (u : user.User)
    (w : World) :
  System c = Some s ->
  user_Lookup env (trace w) (Username s) = inl u ->
  files w !! "config.yml" = None ->
  exists e,
    EnsureUser env c w =
    (Ok (mkConfiguration (Debug c)
           (Some (mkSystemConfiguration (Data s) (user.Username u)
                    (mkUserIds (fst (strconv_Atoi (user.Uid u)))
                       (fst (strconv_Atoi (user.Gid u))))))
           (Panel c) (License c),
         (Some u, Some e)),
     mkWorld (files w) (logger w) (trace w ++ [EvLookup (Username s)])).
Proof.
  intros Hsys Hl Hfile. unfold EnsureUser. rewrite Hsys.
  rewrite (bind_Ok (user_lookup env (Username s)) _ w _ _ eq_refl), Hl.
  unfold SetSystemUser.
  destruct (strconv_Atoi (user.Uid u)) as [uid ?].
  destruct (strconv_Atoi (user.Gid u)) as [gid ?].
  rewrite Hsys. simpl fst.
  set (c1 := mkConfiguration _ _ _ _).
  set (w1 := mkWorld (files w) (logger w) _).
  destruct (proj2 (WriteToDisk_creates_no_file_aux env c1 w1) Hfile) as [e He].
  exists e. unfold mbind, M_bind. now rewrite He.
Qed.

Lemma EnsureUser_write_error_witness :
  files worldNoConfigYml !! "config.yml" = None /\
  exists e,
    EnsureUser hostLicensed defaultConfiguration worldNoConfigYml =
    (Ok (resolvedConfiguration, (Some panelUser, Some e)),
     mkWorld (files worldNoConfigYml) None [EvLookup "cosmicpanel"]).
Proof.
  split; [reflexivity |].
  exact (EnsureUser_returns_user_and_write_error
           hostLicensed defaultConfiguration
           (mkSystemConfiguration "/usr/local/cosmicpanel" "cosmicpanel" (mkUserIds 0 0))
           panelUser worldNoConfigYml eq_refl eq_refl eq_refl).
Defined.

(** X8: [EnsureUser] a second time.  After a call that succeeded with user
    [u], a second call on the configuration it left, for which the OS gives
    the same user again and which succeeds too, returns that user and
    changes neither the configuration nor any file. *)
Theorem EnsureUser_twice
    (env : Env) (c c1 c2 : Configuration) (u : user.User)
    (ou2 : option user.User) (w w1 w2 : World) :
  EnsureUser env c w = (Ok (c1, (Some u, None)), w1) ->
  user_Lookup env (trace w1) (user.Username u) = inl u ->
  EnsureUser env c1 w1 = (Ok (c2, (ou2, None)), w2) ->
  c2 = c1 /\ ou2 = Some u /\ files w2 = files w1.
Proof.
  intros H1 Hl H2.
  apply EnsureUser_inv in H1 as [(Hno & _) | (u' & wa & Hu & _ & Hset1)];
    [discriminate |].
  injection Hu as <-.
  apply SetSystemUser_inv in Hset1 as (s & Hs & Hc1 & Hw1).
  apply WriteToDisk_written in Hw1 as (b & old & Hb & _ & Hw1).
  assert (Hs1 : System c1 =
                Some (mkSystemConfiguration (Data s) (user.Username u)
                        (mkUserIds (fst (strconv_Atoi (user.Uid u)))
                           (fst (strconv_Atoi (user.Gid u))))))
    by (now rewrite Hc1).
  unfold EnsureUser in H2. rewrite Hs1 in H2. simpl Username in H2.
  rewrite (bind_Ok (user_lookup env (user.Username u)) _ w1 _ _ eq_refl), Hl in H2.
  apply bind_inv in H2 as ([c3 err] & w3 & Hset2 & Hret).
  injection Hret as -> <- -> ->.
  apply SetSystemUser_inv in Hset2 as (s1 & Hs1' & Hc2 & Hw2).
  rewrite Hs1 in Hs1'. injection Hs1' as <-. simpl in Hc2.
  assert (Hsame : c2 = c1) by (rewrite Hc2, Hc1; reflexivity).
  subst c2. split; [exact Hsame |]. split; [reflexivity |].
  rewrite Hsame in Hw2.
  apply WriteToDisk_written in Hw2 as (b' & old' & Hb' & Hold' & ->).
  rewrite Hb in Hb'. injection Hb' as <-.
  simpl in *. rewrite Hw1 in *. simpl in *.
  rewrite lookup_insert_eq in Hold'. injection Hold' as <-.
  now rewrite overwrite_twice, insert_insert_eq.
Qed.

Lemma EnsureUser_twice_witness :
  EnsureUser hostLicensed defaultConfiguration world0 =
  (Ok (resolvedConfiguration, (Some panelUser, None)),
   snd (EnsureUser hostLicensed defaultConfiguration world0)) /\
  files (snd (EnsureUser hostLicensed resolvedConfiguration
                (snd (EnsureUser hostLicensed defaultConfiguration world0)))) =
  files (snd (EnsureUser hostLicensed defaultConfiguration world0)).
Proof.
  assert (H1 : EnsureUser hostLicensed defaultConfiguration world0 =
               (Ok (resolvedConfiguration, (Some panelUser, None)),
                snd (EnsureUser hostLicensed defaultConfiguration world0)))
    by (vm_compute; reflexivity).
  assert (H2 : EnsureUser hostLicensed resolvedConfiguration
                 (snd (EnsureUser hostLicensed defaultConfiguration world0)) =
               (Ok (resolvedConfiguration, (Some panelUser, None)),
                snd (EnsureUser hostLicensed resolvedConfiguration
                       (snd (EnsureUser hostLicensed defaultConfiguration world0)))))
    by (vm_compute; reflexivity).
  split; [exact H1 |].
  exact (proj2 (proj2 (EnsureUser_twice
                         hostLicensed defaultConfiguration resolvedConfiguration
                         resolvedConfiguration panelUser (Some panelUser) world0
                         (snd (EnsureUser hostLicensed defaultConfiguration world0))
                         (snd (EnsureUser hostLicensed resolvedConfiguration
                                 (snd (EnsureUser hostLicensed defaultConfiguration
                                         world0))))
                         H1 eq_refl H2))).
Defined.

(** ** The license client, again *)

Lemma yields_ret {A} (P : A -> Prop) (a : A) : P a -> yields P (mret a : M A).
Proof. intros H w a' w' [= <- _]. exact H. Qed.

Lemma yields_bind {A B} (P : B -> Prop) (m : M A) (f : A -> M B) :
  (forall a, yields P (f a)) -> yields P (m ≫= f).
Proof.
  intros Hf w b w' H. apply bind_inv in H as (a & w1 & _ & H). now apply Hf in H.
Qed.

Lemma yields_log_Fatal {A} (P : A -> Prop) (msg : string) :
  yields P (log_Fatal (A:=A) msg).
Proof. intros w a w' H. discriminate. Qed.

Lemma yields_panic {A} (P : A -> Prop) (msg : string) : yields P (panic msg : M A).
Proof. intros w a w' H. discriminate. Qed.

Lemma RequestNewLicense_type (env : Env) (c : Configuration) (dnsonly : bool) :
  RequestNewLicense env c dnsonly = requestLicense env c (requested_type dnsonly).
Proof. now destruct dnsonly. Qed.

Section Traffic.

Variable env : Env.

Lemma requestLicense_yields (c : Configuration) (licenseType : Z) :
  yields (fun c' => c' = c) (requestLicense env c licenseType).
Proof.
  unfold requestLicense. apply yields_bind. intros ip.
  destruct (negb (ip =? "")%string); [| now apply yields_ret].
  apply yields_bind. intros _.
  destruct (json_Marshal env _) as [body | e].
  - destruct (http_NewRequest env "POST" _ _) as [req | e]; [| apply yields_panic].
    apply yields_bind. intros [resp | e]; [now apply yields_ret |].
    apply yields_bind. intros _. now apply yields_ret.
  - apply yields_bind. intros _. now apply yields_ret.
Qed.

Lemma CheckLicense_yields (c : Configuration) (dnsonly : bool) :
  yields (fun c' => c' = c \/ exists v t, c' = SetLicenseSettings c v t)
    (CheckLicense env c dnsonly).
Proof.
  assert (Hreq : forall A (P : Configuration -> Prop) (m : M A),
             P c ->
             yields P (m ≫= fun _ => RequestNewLicense env c dnsonly ≫= fun c0 => mret c0)).
  { intros A P m HP. apply yields_bind. intros _. rewrite RequestNewLicense_type.
    intros w c' w' H. apply bind_inv in H as (c0 & w1 & H & [= <- _]).
    apply requestLicense_yields in H. now subst. }
  unfold CheckLicense. apply yields_bind. intros ip.
  destruct (negb (ip =? "")%string); [| apply yields_ret; now left].
  destruct (http_NewRequest env "GET" _ None) as [req | e];
    [| apply Hreq; now left].
  apply yields_bind. intros [resp | e]; [| apply Hreq; now left].
  destruct (json_Decode env (Body resp)) as [record | e]; [| apply Hreq; now left].
  apply yields_ret. right. eauto.
Qed.

(** What [requestLicense] sends: nothing, or one POST for the type asked. *)
Lemma requestLicense_traffic (c : Configuration) (licenseType : Z) (w : World) :
  requests (trace (snd (requestLicense env c licenseType w))) = requests (trace w) \/
  exists ip body,
    json_Marshal env (mkLicenseRequest licenseType ip) = inl body /\
    requests (trace (snd (requestLicense env c licenseType w))) =
    requests (trace w) ++ [EvDo (licensePOST body)].
Proof.
  destruct (String.eqb_spec (outbound env (trace w)) "") as [Hip | Hip].
  { left. rewrite requestLicense_no_route by exact Hip.
    apply (dialled_observations w). }
  destruct (json_Marshal env (mkLicenseRequest licenseType (outbound env (trace w))))
    as [body | e] eqn:Hj.
  - destruct (url_error env "POST" "https://licenses.cosmicpanel.net/request")
      as [e |] eqn:Hu.
    + left. unfold requestLicense.
      rewrite (bind_Ok _ _ _ _ _ (GetOutboundIP_run env w)).
      take_route Hip.
      unfold fmt_Println, emit, mbind, M_bind, dialled, http_NewRequest. simpl.
      rewrite Hj, Hu. simpl. rewrite !requests_app. simpl.
      now rewrite !List.app_nil_r.
    + right. exists (outbound env (trace w)), body. split; [exact Hj |].
      rewrite (requestLicense_routed env c licenseType w body Hip Hj Hu).
      destruct (http_Do env _ _); unfold requested; simpl;
        rewrite !requests_app; simpl; now rewrite ?List.app_nil_r.
  - left. unfold requestLicense.
    rewrite (bind_Ok _ _ _ _ _ (GetOutboundIP_run env w)).
    take_route Hip.
    unfold fmt_Println, emit, mbind, M_bind, dialled. simpl.
    rewrite Hj. simpl. rewrite !requests_app. simpl.
    now rewrite !List.app_nil_r.
Qed.

Lemma CheckLicense_traffic_from (c : Configuration) (dnsonly : bool) (w : World) :
  exists sent,
    requests (trace (snd (CheckLicense env c dnsonly w))) = requests (trace w) ++ sent /\
    license_traffic env (requested_type dnsonly) sent.
Proof.
  set (ip := outbound env (trace w)).
  assert (Hget : requests (trace (verified env w)) =
                 requests (trace w) ++ [EvDo (verifyGET ip)]).
  { unfold verified. simpl. now rewrite requests_app. }
  destruct (String.eqb_spec ip "") as [Hip | Hip].
  { exists []. rewrite CheckLicense_no_route by exact Hip.
    split; [| now left].
    rewrite List.app_nil_r. apply (dialled_observations w). }
  destruct (url_error env "GET" (URL (verifyGET ip))) as [e |] eqn:Hu.
  { exists []. rewrite (CheckLicense_NewRequest_error env c dnsonly w e Hip Hu).
    split; [| now left].
    simpl. rewrite requests_app. reflexivity. }
  destruct (http_Do env (trace (dialled w)) (verifyGET ip)) as [resp | e] eqn:Hdo.
  - destruct (json_Decode env (Body resp)) as [record | e] eqn:Hdec.
    + exists [EvDo (verifyGET ip)].
      rewrite (CheckLicense_success env c dnsonly w resp record Hip Hu Hdo Hdec).
      split; [exact Hget | right; left; eauto].
    + rewrite (CheckLicense_Decode_error env c dnsonly w resp e Hip Hu Hdo Hdec).
      rewrite RequestNewLicense_type.
      set (w2 := mkWorld _ _ (trace (verified env w) ++ [EvLog (error_Error e)])).
      assert (Hw2 : requests (trace w2) = requests (trace w) ++ [EvDo (verifyGET ip)]).
      { unfold w2, verified. simpl. rewrite !requests_app. simpl.
        now rewrite List.app_nil_r. }
      destruct (requestLicense_traffic c (requested_type dnsonly) w2)
        as [Hnone | (ip' & body & Hj & Hpost)].
      * exists [EvDo (verifyGET ip)]. rewrite Hnone.
        split; [exact Hw2 | right; left; eauto].
      * exists [EvDo (verifyGET ip); EvDo (licensePOST body)].
        rewrite Hpost, Hw2, <- List.app_assoc.
        split; [reflexivity | right; right; eauto 6].
  - exists [EvDo (verifyGET ip)].
    rewrite (CheckLicense_Do_error env c dnsonly w e Hip Hu Hdo).
    split; [| right; left; eauto].
    unfold verified. simpl. rewrite !requests_app. simpl.
    now rewrite List.app_nil_r.
Qed.

End Traffic.

(** X9: one license check sends at most the verify GET and after it at most
    one license request, in that order and with no retry; the request
    carries type 3 when [dnsonly] is set and type 4 when it is not. *)
Theorem CheckLicense_traffic
    (env : Env) (c : Configuration) (dnsonly : bool) (w : World) :
  exists sent,
    requests (trace (snd (CheckLicense env c dnsonly w))) = requests (trace w) ++ sent /\
    license_traffic env (if dnsonly then DNSONLY else TRIAL) sent.
Proof.
  destruct (CheckLicense_traffic_from env c dnsonly w) as (sent & Hsent & Htraffic).
  exists sent. split; [exact Hsent |]. now destruct dnsonly.
Qed.

(** X10: the license client is confined to the network and the log.
    [CheckLicense] and [requestLicense] change no file, start no command,
    look up no user and leave the logger alone, however they end; and a
    configuration [CheckLicense] returns differs from the one it was given
    at most in its license section. *)
Theorem license_client_is_confined
    (env : Env) (c : Configuration) (dnsonly : bool) (licenseType : Z) (w : World) :
  (files (snd (CheckLicense env c dnsonly w)) = files w /\
   logger (snd (CheckLicense env c dnsonly w)) = logger w /\
   execs (trace (snd (CheckLicense env c dnsonly w))) = execs (trace w) /\
   lookups (trace (snd (CheckLicense env c dnsonly w))) = lookups (trace w)) /\
  (files (snd (requestLicense env c licenseType w)) = files w /\
   logger (snd (requestLicense env c licenseType w)) = logger w /\
   execs (trace (snd (requestLicense env c licenseType w))) = execs (trace w) /\
   lookups (trace (snd (requestLicense env c licenseType w))) = lookups (trace w)) /\
  (forall c' w',
      CheckLicense env c dnsonly w = (Ok c', w') ->
      Debug c' = Debug c /\ System c' = System c /\ Panel c' = Panel c) /\
  (forall c' w', requestLicense env c licenseType w = (Ok c', w') -> c' = c).
Proof.
  assert (Hfiles : forall ev, ignores files ev) by (intros ev fs lg tr; reflexivity).
  assert (Hlogger : forall ev, ignores logger ev) by (intros ev fs lg tr; reflexivity).
  repeat split.
  - apply (stable_CheckLicense files env c dnsonly); intros; apply Hfiles.
  - apply (stable_CheckLicense logger env c dnsonly); intros; apply Hlogger.
  - apply (stable_CheckLicense (fun w => execs (trace w)) env c dnsonly);
      intros; now apply (ignores_filter is_EvExec).
  - apply (stable_CheckLicense (fun w => lookups (trace w)) env c dnsonly);
      intros; now apply (ignores_filter is_EvLookup).
  - apply (stable_requestLicense files env c licenseType); intros; apply Hfiles.
  - apply (stable_requestLicense logger env c licenseType); intros; apply Hlogger.
  - apply (stable_requestLicense (fun w => execs (trace w)) env c licenseType);
      intros; now apply (ignores_filter is_EvExec).
  - apply (stable_requestLicense (fun w => lookups (trace w)) env c licenseType);
      intros; now apply (ignores_filter is_EvLookup).
  - apply CheckLicense_yields in H as [-> | (v & t & ->)]; reflexivity.
  - apply CheckLicense_yields in H as [-> | (v & t & ->)]; reflexivity.
  - apply CheckLicense_yields in H as [-> | (v & t & ->)]; reflexivity.
  - intros c' w' H. now apply requestLicense_yields in H.
Qed.

(** X11: the license request is fire and forget.  When an address is found
    and the request is built, an answer of the server, whatever its status
    and body, is not read: [requestLicense] returns the configuration it was
    given and the files are untouched.  A transport error of the POST ends
    the process with status 1. *)
Theorem requestLicense_fire_and_forget
    (env : Env) (c : Configuration) (licenseType : Z) (w : World) (body : string) :
  outbound env (trace w) <> "" ->
  json_Marshal env (mkLicenseRequest licenseType (outbound env (trace w))) = inl body ->
  url_error env "POST" "https://licenses.cosmicpanel.net/request" = None ->
  (forall resp,
      http_Do env (trace w ++ [EvDial "udp" "8.8.8.8:80"; EvStdout "Requesting License..."])
        (licensePOST body) = inl resp ->
      requestLicense env c licenseType w = (Ok c, requested w body)) /\
  (forall err,
      http_Do env (trace w ++ [EvDial "udp" "8.8.8.8:80"; EvStdout "Requesting License..."])
        (licensePOST body) = inr err ->
      requestLicense env c licenseType w =
      (Exit 1,
       mkWorld (files w) (logger w)
         (trace (requested w body) ++ [EvLog ("RequestLicense: " +:+ error_Error err)]))) /\
  files (requested w body) = files w.
Proof.
  intros Hip Hj Hu.
  pose proof (requestLicense_routed env c licenseType w body Hip Hj Hu) as Hrun.
  repeat split.
  - intros resp Hdo. now rewrite Hdo in Hrun.
  - intros err Hdo. now rewrite Hdo in Hrun.
Qed.

Lemma requestLicense_fire_and_forget_witness :
  requestLicense hostBadGateway defaultConfiguration TRIAL world0 =
  (Ok defaultConfiguration,
   requested world0 (render_request (mkLicenseRequest TRIAL "10.0.0.5"))) /\
  requestLicense hostServerDown defaultConfiguration TRIAL world0 =
  (Exit 1,
   mkWorld (files world0) None
     (trace (requested world0 (render_request (mkLicenseRequest TRIAL "10.0.0.5"))) ++
      [EvLog "RequestLicense: dial tcp: connect: connection refused"])).
Proof.
  split.
  - exact (proj1 (requestLicense_fire_and_forget
                    hostBadGateway defaultConfiguration TRIAL world0
                    (render_request (mkLicenseRequest TRIAL "10.0.0.5"))
                    ltac:(discriminate) eq_refl eq_refl)
             (mkResponse 502 "<html>Bad Gateway</html>") eq_refl).
  - exact (proj1 (proj2 (requestLicense_fire_and_forget
                           hostServerDown defaultConfiguration TRIAL world0
                           (render_request (mkLicenseRequest TRIAL "10.0.0.5"))
                           ltac:(discriminate) eq_refl eq_refl))
             (errorString "dial tcp: connect: connection refused") eq_refl).
Defined.

(** ** The entrypoint *)

Section StableMain.

Context {X : Type} (obs : World -> X) (env : Env).

Lemma stable_ReadConfiguration (path : string) :
  stable obs (ReadConfiguration env path).
Proof. unfold ReadConfiguration. stable_with idtac. Qed.

Lemma stable_ConfigureLogging (debug : bool) :
  ignores_logger obs -> stable obs (ConfigureLogging env debug).
Proof. intros H. unfold ConfigureLogging. stable_with assumption. Qed.

Lemma stable_flag_parse (args : list string) : stable obs (flag_parse env args).
Proof. unfold flag_parse. stable_with idtac. Qed.

(** A computation that leaves [obs] alone, then a continuation: a property
    of the final world that holds wherever [obs] is as at the start, and
    after the continuation from such a world, holds at the end. *)
Lemma after_stable {A B} (m : M A) (f : A -> M B) (P : World -> Prop) (w : World) :
  stable obs m ->
  (forall w1, obs w1 = obs w -> P w1) ->
  (forall a w1, obs w1 = obs w -> P (snd (f a w1))) ->
  P (snd ((m ≫= f) w)).
Proof.
  intros Hm Hstop Hgo. unfold mbind, M_bind. specialize (Hm w).
  destruct (m w) as [[a | code | msg] w1]; simpl in *; auto.
Qed.


End StableMain.




(** X14: the configuration file cannot be read or parsed.  With the logger
    not yet configured, [main] panics with the error of [ReadConfiguration]
    in the world it started in: nothing was logged, looked up, started or
    sent. *)
Theorem main_aborts_on_unreadable_configuration
    (env : Env) (args : list string) (e : error) (w : World) :
  flag_Parse env args = None ->
  logger w = None ->
  ReadConfiguration env "config.yml" w = (Ok (None, Some e), w) ->
  main env args w = (Panic (error_Error e), w).
Proof.
  intros Hflag Hlog Hread. unfold main, flag_parse. rewrite Hflag.
  rewrite (bind_Ok (mret tt) _ w w tt eq_refl).
  assert (Hz : zap_S InfoLevel
                 ("Using configuration file: " +:+ "config.yml") w = (Ok tt, w))
    by (unfold zap_S; now rewrite Hlog).
  rewrite (bind_Ok _ _ _ _ _ Hz).
  now rewrite (bind_Ok _ _ _ _ _ Hread).
Qed.

Lemma main_aborts_witness :
  ReadConfiguration hostLicensed "config.yml" worldNoConfigYml =
  (Ok (None, Some (errorString "open config.yml: no such file or directory")),
   worldNoConfigYml) /\
  main hostLicensed [] worldNoConfigYml =
  (Panic "open config.yml: no such file or directory", worldNoConfigYml).
Proof.
  split; [reflexivity |].
  exact (main_aborts_on_unreadable_configuration
           hostLicensed [] (errorString "open config.yml: no such file or directory")
           worldNoConfigYml eq_refl eq_refl eq_refl).
Defined.

(** X15: what one run of the daemon sends to the license server: at most
    the verify GET and after it at most one license request, and that
    request asks for a trial license (type 4) whatever the command line
    says. *)
Theorem main_license_traffic (env : Env) (args : list string) (w : World) :
  exists sent,
    requests (trace (snd (main env args w))) = requests (trace w) ++ sent /\
    license_traffic env TRIAL sent.
Proof.
  set (P := fun w' : World =>
              exists sent,
                requests (trace w') = requests (trace w) ++ sent /\
                license_traffic env TRIAL sent).
  set (obs := fun w' : World => requests (trace w')).
  assert (Hev : forall ev, is_EvDo ev = false -> ignores obs ev)
    by (intros ev H; now apply (ignores_filter is_EvDo)).
  assert (Hlog : ignores_logger obs) by (intros fs lg lg' tr; reflexivity).
  assert (Hfile : forall path, ignores_file obs path)
    by (intros path fs lg tr b; reflexivity).
  assert (Hstop : forall w1, obs w1 = obs w -> P w1).
  { intros w1 H1. exists []. split; [now rewrite List.app_nil_r | now left]. }
  change (P (snd (main env args w))). unfold main.
  apply (after_stable obs); [apply stable_flag_parse | exact Hstop |].
  intros _ w1 H1.
  apply (after_stable obs); [now apply stable_zap_S, Hev | | ].
  { intros w2 H2. apply Hstop. congruence. }
  intros _ w2 H2. rewrite H1 in H2. clear w1 H1.
  apply (after_stable obs); [apply stable_ReadConfiguration | | ].
  { intros w3 H3. apply Hstop. congruence. }
  intros [oc oerr] w3 H3. rewrite H2 in H3. clear w2 H2.
  destruct oerr as [e |]; [now apply Hstop |].
  destruct oc as [c |]; [| now apply Hstop].
  cbv zeta iota.
  apply (after_stable obs); [now apply stable_ConfigureLogging | | ].
  { intros w4 H4. apply Hstop. congruence. }
  intros lerr w4 H4. rewrite H3 in H4. clear w3 H3.
  destruct lerr as [e |]; [now apply Hstop |].
  apply (after_stable obs).
  { destruct (Debug c); [now apply stable_zap_S, Hev | apply stable_ret]. }
  { intros w5 H5. apply Hstop. congruence. }
  intros _ w5 H5. rewrite H4 in H5. clear w4 H4.
  apply (after_stable obs); [now apply stable_zap_S, Hev | | ].
  { intros w6 H6. apply Hstop. congruence. }
  intros _ w6 H6. rewrite H5 in H6. clear w5 H5.
  apply (after_stable obs).
  { apply stable_EnsureUser; [apply Hfile | |]; intros; now apply Hev. }
  { intros w7 H7. apply Hstop. congruence. }
  intros [c' [ou uerr]] w7 H7. rewrite H6 in H7. clear w6 H6.
  apply (after_stable obs).
  { destruct uerr; [now apply stable_zap_Panicw, Hev | now apply stable_zap_S, Hev]. }
  { intros w8 H8. apply Hstop. congruence. }
  intros _ w8 H8. rewrite H7 in H8. clear w7 H7.
  apply (after_stable obs); [now apply stable_zap_S, Hev | | ].
  { intros w9 H9. apply Hstop. congruence. }
  intros _ w9 H9. rewrite H8 in H9. clear w8 H8.
  assert (Hend : snd ((CheckLicense env c' false ≫= fun _ => mret tt) w9) =
                 snd (CheckLicense env c' false w9)).
  { unfold mbind, M_bind.
    now destruct (CheckLicense env c' false w9) as [[a | code | msg] wz]. }
  rewrite Hend.
  destruct (CheckLicense_traffic_from env c' false w9) as (sent & Hsent & Htraffic).
  exists sent. split; [| exact Htraffic].
  rewrite Hsent. unfold obs in H9. now rewrite H9.
Qed.

(** X16: [EnsureUser] is local to the host: it makes no network call, prints
    and logs nothing and leaves the logger alone, however it ends. *)
Theorem EnsureUser_is_local (env : Env) (c : Configuration) (w : World) :
  network (trace (snd (EnsureUser env c w))) = network (trace w) /\
  outputs (trace (snd (EnsureUser env c w))) = outputs (trace w) /\
  logger (snd (EnsureUser env c w)) = logger w.
Proof.
  repeat split.
  - apply (stable_EnsureUser (fun w => network (trace w)) env c).
    + intros fs lg tr b. reflexivity.
    + intros name. now apply (ignores_filter is_network).
    + intros name args. now apply (ignores_filter is_network).
  - apply (stable_EnsureUser (fun w => outputs (trace w)) env c).
    + intros fs lg tr b. reflexivity.
    + intros name. now apply (ignores_filter is_output).
    + intros name args. now apply (ignores_filter is_output).
  - apply (stable_EnsureUser logger env c).
    + intros fs lg tr b. reflexivity.
    + intros name fs lg tr. reflexivity.
    + intros name args fs lg tr. reflexivity.
Qed.

(** [main] from its start to the call of [EnsureUser]. *)
Lemma main_until_EnsureUser
    (env : Env) (args : list string) (c : Configuration) (w : World) :
  flag_Parse env args = None ->
  logger w = None ->
  ReadConfiguration env "config.yml" w = (Ok (Some c, None), w) ->
  zap_Build env (Debug c) = None ->
  main env args w =
  ((EnsureUser env c ≫= fun '(c', (_, uerr)) =>
      match uerr with
      | Some _ => zap_Panicw "Failed to create CosmicPanel system user"
      | None => zap_S InfoLevel "Configured system user..."
      end;;
      zap_S InfoLevel "Checking for vaid license...";;
      _ ← CheckLicense env c' false;
      mret tt)
     (mkWorld (files w) (Some (Debug c))
        (trace w ++
         (if Debug c then [EvZap DebugLevel "running in debug mode"] else []) ++
         [EvZap InfoLevel "Checking for CosmicPanel system user..."]))).
Proof.
  intros Hflag Hlog Hread Hzap. unfold main, flag_parse. rewrite Hflag.
  rewrite (bind_Ok (mret tt) _ w w tt eq_refl).
  assert (Hz : zap_S InfoLevel
                 ("Using configuration file: " +:+ "config.yml") w = (Ok tt, w))
    by (unfold zap_S; now rewrite Hlog).
  rewrite (bind_Ok _ _ _ _ _ Hz), (bind_Ok _ _ _ _ _ Hread).
  cbv beta iota zeta. unfold ConfigureLogging. rewrite Hzap.
  rewrite (bind_Ok (zap_ReplaceGlobals (Debug c) ≫= fun _ => mret None) _ w
             (mkWorld (files w) (Some (Debug c)) (trace w)) None eq_refl).
  cbv beta iota.
  destruct (Debug c) eqn:Hd.
  - rewrite (bind_Ok (zap_S DebugLevel "running in debug mode") _
               (mkWorld (files w) (Some true) (trace w))
               (mkWorld (files w) (Some true)
                  (trace w ++ [EvZap DebugLevel "running in debug mode"])) tt eq_refl).
    rewrite (bind_Ok (zap_S InfoLevel "Checking for CosmicPanel system user...") _
               (mkWorld (files w) (Some true)
                  (trace w ++ [EvZap DebugLevel "running in debug mode"]))
               (mkWorld (files w) (Some true)
                  ((trace w ++ [EvZap DebugLevel "running in debug mode"]) ++
                   [EvZap InfoLevel "Checking for CosmicPanel system user..."]))
               tt eq_refl).
    now rewrite <- List.app_assoc.
  - rewrite (bind_Ok (mret tt) _ (mkWorld (files w) (Some false) (trace w))
               (mkWorld (files w) (Some false) (trace w)) tt eq_refl).
    now rewrite (bind_Ok (zap_S InfoLevel "Checking for CosmicPanel system user...") _
                   (mkWorld (files w) (Some false) (trace w))
                   (mkWorld (files w) (Some false)
                      (trace w ++
                       [EvZap InfoLevel "Checking for CosmicPanel system user..."]))
                   tt eq_refl).
Qed.

(** X17: the order of a run.  Once [config.yml] is read and the logger is
    built, [main] calls [EnsureUser] on the configuration that was read.  An
    error of [EnsureUser] is logged at panic level and ends the run in a
    panic, with no call of [CheckLicense]; without an error two lines are
    logged and the run ends as [CheckLicense] ends, called without
    [dnsonly] on the configuration [EnsureUser] left. *)
Theorem main_runs_EnsureUser_then_CheckLicense
    (env : Env) (args : list string) (c c' : Configuration)
    (ou : option user.User) (uerr : option error) (w w3 : World) :
  flag_Parse env args = None ->
  logger w = None ->
  ReadConfiguration env "config.yml" w = (Ok (Some c, None), w) ->
  zap_Build env (Debug c) = None ->
  EnsureUser env c
    (mkWorld (files w) (Some (Debug c))
       (trace w ++
        (if Debug c then [EvZap DebugLevel "running in debug mode"] else []) ++
        [EvZap InfoLevel "Checking for CosmicPanel system user..."])) =
  (Ok (c', (ou, uerr)), w3) ->
  match uerr with
  | Some _ =>
      main env args w =
      (Panic "Failed to create CosmicPanel system user",
       mkWorld (files w3) (Some (Debug c))
         (trace w3 ++
          [EvZap PanicLevel "Failed to create CosmicPanel system user"]))
  | None =>
      snd (main env args w) =
      snd (CheckLicense env c' false
             (mkWorld (files w3) (Some (Debug c))
                (trace w3 ++
                 [EvZap InfoLevel "Configured system user...";
                  EvZap InfoLevel "Checking for vaid license..."]))) /\
      (forall cl,
          fst (CheckLicense env c' false
                 (mkWorld (files w3) (Some (Debug c))
                    (trace w3 ++
                     [EvZap InfoLevel "Configured system user...";
                      EvZap InfoLevel "Checking for vaid license..."]))) = Ok cl ->
          fst (main env args w) = Ok tt)
  end.
Proof.
  intros Hflag Hlog Hread Hzap Huser.
  rewrite (main_until_EnsureUser env args c w Hflag Hlog Hread Hzap).
  rewrite (bind_Ok _ _ _ _ _ Huser).
  assert (Hl3 : logger w3 = Some (Debug c)).
  { pose proof (stable_EnsureUser logger env c
                  ltac:(intros fs lg tr b; reflexivity)
                  ltac:(intros name fs lg tr; reflexivity)
                  ltac:(intros name args0 fs lg tr; reflexivity)) as Hst.
    specialize (Hst (mkWorld (files w) (Some (Debug c))
                       (trace w ++
                        (if Debug c
                         then [EvZap DebugLevel "running in debug mode"] else []) ++
                        [EvZap InfoLevel "Checking for CosmicPanel system user..."]))).
    now rewrite Huser in Hst. }
  destruct w3 as [fs3 lg3 tr3]. simpl in Hl3. subst lg3.
  destruct uerr as [e |].
  - reflexivity.
  - cbv beta iota.
    rewrite (bind_Ok (zap_S InfoLevel "Configured system user...") _
               (mkWorld fs3 (Some (Debug c)) tr3)
               (mkWorld fs3 (Some (Debug c))
                  (tr3 ++ [EvZap InfoLevel "Configured system user..."])) tt eq_refl).
    rewrite (bind_Ok (zap_S InfoLevel "Checking for vaid license...") _
               (mkWorld fs3 (Some (Debug c))
                  (tr3 ++ [EvZap InfoLevel "Configured system user..."]))
               (mkWorld fs3 (Some (Debug c))
                  ((tr3 ++ [EvZap InfoLevel "Configured system user..."]) ++
                   [EvZap InfoLevel "Checking for vaid license..."])) tt eq_refl).
    rewrite <- List.app_assoc. simpl.
    unfold mbind, M_bind.
    destruct (CheckLicense env c' false _) as [[cl | code | msg] w5]; simpl.
    + split; [reflexivity | reflexivity].
    + split; [reflexivity | discriminate].
    + split; [reflexivity | discriminate].
Qed.

Lemma main_order_witness :
  ReadConfiguration hostDenied "config.yml" worldSystem =
  (Ok (Some systemConfiguration, None), worldSystem) /\
  main hostDenied [] worldSystem =
  (Panic "Failed to create CosmicPanel system user",
   mkWorld (files worldSystem) (Some false)
     ([EvZap InfoLevel "Checking for CosmicPanel system user..."; EvLookup "panel"] ++
      [EvZap PanicLevel "Failed to create CosmicPanel system user"])).
Proof.
  split; [reflexivity |].
  exact (main_runs_EnsureUser_then_CheckLicense
           hostDenied [] systemConfiguration systemConfiguration None
           (Some (errorString "open /etc/passwd: permission denied"))
           worldSystem
           (mkWorld (files worldSystem) (Some false)
              [EvZap InfoLevel "Checking for CosmicPanel system user...";
               EvLookup "panel"])
           eq_refl eq_refl eq_refl eq_refl eq_refl).
Defined.
